(** * docx-wasm: the JavaScript builder layer of docx-rs

    A shallow embedding of [docx-wasm/js/index.ts]: the [Docx] builder class,
    the [build*] translators that turn the JavaScript node tree into calls on
    the wasm builder objects, and the two terminal operations [build] and
    [json].

    Conventions.
    - JavaScript numbers that the source only passes on (ids, sizes, widths)
      are [Z]; strings are [string]; an optional or possibly [undefined]
      field is an [option].
    - A [forEach] whose callback reassigns an outer [let] is a [fold_left].
    - The wasm package ([./pkg]) is generated from Rust and is not part of the
      TypeScript sources.  A wasm builder object is therefore represented by
      what the TypeScript layer does to it: the arguments it was created with
      and the chronological list of method calls it received.  [o ▸ c] reads
      "[o.c(...)]".  No behaviour of the Rust side is assumed by this
      representation. *)

From Stdlib Require Import List Ascii String ZArith Bool Lia Decimal DecimalString.
Import ListNotations.
Local Open Scope string_scope.
Local Open Scope Z_scope.

Set Implicit Arguments.

(** ** JavaScript truthiness *)

(** [if (s)] on a string-or-undefined: the empty string is falsy. *)
Definition truthyS (o : option string) : option string :=
  match o with
  | Some s => if String.eqb s "" then None else Some s
  | None => None
  end.

(** [if (n)] on a number-or-undefined: zero is falsy. *)
Definition truthyZ (o : option Z) : option Z :=
  match o with
  | Some n => if Z.eqb n 0 then None else Some n
  | None => None
  end.

(** [o ▸ c]: the builder object [o] after one more method call [c]. *)
Definition call {C : Type} (o : list C) (c : C) : list C := o ++ [c].
Notation "o ▸ c" := (call o c) (at level 50, left associativity).

(** ** The wasm builder interface, as used by index.ts *)

Module wasm.

Module BorderType.
Inductive t :=
  Nil | None | Single | Thick | Double | Dotted | Dashed | DotDash
  | DotDotDash | Triple.
End BorderType.

Module WidthType.
Inductive t := Nil | Pct | DXA | Auto.
End WidthType.

Module BreakType.
Inductive t := Column | Page | TextWrapping.
End BreakType.

Module VertAlignType.
Inductive t := SuperScript | SubScript.
End VertAlignType.

Module AlignmentType.
Inductive t := Center | Right | Justified | Left | Distribute | Both | End_.
End AlignmentType.

Module SpecialIndentKind.
Inductive t := FirstLine | Hanging.
End SpecialIndentKind.

Module LineSpacingType.
Inductive t := AtLeast | Auto | Exact.
End LineSpacingType.

Module HeightRule.
Inductive t := Auto | AtLeast | Exact.
End HeightRule.

Module TableAlignmentType.
Inductive t := Center | Right | Left.
End TableAlignmentType.

Module TableLayoutType.
Inductive t := Fixed | Autofit.
End TableLayoutType.

Module VMergeType.
Inductive t := Continue | Restart.
End VMergeType.

Module VAlignType.
Inductive t := Top | Center | Bottom.
End VAlignType.

Module TableCellBorderPosition.
Inductive t := Top | Right | Bottom | Left | InsideH | InsideV | Tl2br | Tr2bl.

Definition eqb (p q : t) : bool :=
  match p, q with
  | Top, Top | Right, Right | Bottom, Bottom | Left, Left
  | InsideH, InsideH | InsideV, InsideV | Tl2br, Tl2br | Tr2bl, Tr2bl => true
  | _, _ => false
  end.
End TableCellBorderPosition.

Module LevelSuffixType.
Inductive t := Nothing | Space | Tab.
End LevelSuffixType.

Module PageOrientationType.
Inductive t := Landscape | Portrait.
End PageOrientationType.

Module DocGridType.
Inductive t := Default | Lines | LinesAndChars | SnapToChars.
End DocGridType.

(** [toTextDirectionWasmType] is imported from [./table-cell], which is not
    among the sources; its result is kept symbolic. *)
Inductive TextDirectionType :=
  toTextDirectionWasmType (textDirection : string).

Inductive RunFontsCall :=
| RunFonts_ascii (f : string)
| RunFonts_hi_ansi (f : string)
| RunFonts_cs (f : string)
| RunFonts_east_asia (f : string).
Definition RunFonts := list RunFontsCall.
Definition createRunFonts : RunFonts := [].

Inductive RunCall :=
| Run_add_text (text : string)
| Run_add_delete_text (text : string)
| Run_add_tab
| Run_add_break (t : BreakType.t)
| Run_size (size : Z)
| Run_color (color : string)
| Run_highlight (color : string)
| Run_vert_align (a : VertAlignType.t)
| Run_bold
| Run_italic
| Run_underline (lineType : string)
| Run_vanish
| Run_spacing (spacing : Z)
| Run_text_border (borderType : BorderType.t) (size space : Z) (color : string)
| Run_fonts (f : RunFonts).
Definition Run := list RunCall.
Definition createRun : Run := [].

Inductive InsertCall := Insert_author (a : string) | Insert_date (d : string).
Record Insert := createInsert_ { Insert_run : Run; Insert_calls : list InsertCall }.
Definition createInsert (run : Run) : Insert := createInsert_ run [].
Definition Insert_call (i : Insert) (k : InsertCall) : Insert :=
  createInsert_ (Insert_run i) (Insert_calls i ▸ k).

Inductive DeleteCall := Delete_author (a : string) | Delete_date (d : string).
Record Delete := createDelete_ { Delete_run : Run; Delete_calls : list DeleteCall }.
Definition createDelete (run : Run) : Delete := createDelete_ run [].
Definition Delete_call (d : Delete) (k : DeleteCall) : Delete :=
  createDelete_ (Delete_run d) (Delete_calls d ▸ k).

Inductive TableCellBorderCall :=
| TableCellBorder_size (size : Z)
| TableCellBorder_color (color : string)
| TableCellBorder_border_type (t : BorderType.t).
Record TableCellBorder := createTableCellBorder_
  { TableCellBorder_position : TableCellBorderPosition.t;
  TableCellBorder_calls : list TableCellBorderCall }.
Definition createTableCellBorder (p : TableCellBorderPosition.t) : TableCellBorder :=
  createTableCellBorder_ p [].
Definition TableCellBorder_call (b : TableCellBorder) (k : TableCellBorderCall)
  : TableCellBorder :=
  createTableCellBorder_ (TableCellBorder_position b) (TableCellBorder_calls b ▸ k).

Inductive ParagraphCall :=
| Paragraph_add_run (r : Run)
| Paragraph_add_insert (i : Insert)
| Paragraph_add_delete (d : Delete)
| Paragraph_add_bookmark_start (id : Z) (name : string)
| Paragraph_add_bookmark_end (id : Z)
| Paragraph_add_comment_start (c : Comment)
| Paragraph_add_comment_end (id : Z)
| Paragraph_align (a : AlignmentType.t)
| Paragraph_indent (left : Z) (kind : option SpecialIndentKind.t)
  (specialIndentSize : option Z)
| Paragraph_numbering (id level : Z)
| Paragraph_style (styleId : string)
| Paragraph_bold
| Paragraph_line_spacing (before after line : option Z)
  (kind : option LineSpacingType.t)
| Paragraph_italic
| Paragraph_size (size : Z)
| Paragraph_fonts (f : RunFonts)
| Paragraph_keep_lines (v : bool)
| Paragraph_keep_next (v : bool)
| Paragraph_page_break_before (v : bool)
| Paragraph_window_control (v : bool)
with Comment :=
| createComment_ (id : Z) (calls : list CommentCall)
with CommentCall :=
| Comment_add_paragraph (p : list ParagraphCall)
| Comment_author (a : string)
| Comment_date (d : string)
| Comment_parent_comment_id (id : Z).
Definition Paragraph := list ParagraphCall.
Definition createParagraph : Paragraph := [].
Definition createComment (id : Z) : Comment := createComment_ id [].
Definition Comment_call (c : Comment) (k : CommentCall) : Comment :=
  match c with createComment_ id calls => createComment_ id (calls ▸ k) end.

Inductive TableCall :=
| Table_add_row (r : list TableRowCall)
| Table_set_grid (grid : list Z)
| Table_indent (v : Z)
| Table_cell_margin_top (v : Z) (t : WidthType.t)
| Table_cell_margin_right (v : Z) (t : WidthType.t)
| Table_cell_margin_bottom (v : Z) (t : WidthType.t)
| Table_cell_margin_left (v : Z) (t : WidthType.t)
| Table_align (a : TableAlignmentType.t)
| Table_layout (l : TableLayoutType.t)
with TableRowCall :=
| TableRow_add_cell (c : list TableCellCall)
| TableRow_row_height (h : Z)
| TableRow_height_rule (r : HeightRule.t)
with TableCellCall :=
| TableCell_add_paragraph (p : Paragraph)
| TableCell_add_table (t : list TableCall)
| TableCell_vertical_merge (t : VMergeType.t)
| TableCell_vertical_align (t : VAlignType.t)
| TableCell_grid_span (v : Z)
| TableCell_width (v : Z)
| TableCell_text_direction (t : TextDirectionType)
| TableCell_set_border (b : TableCellBorder)
| TableCell_shading (t color fill : string).
Definition Table := list TableCall.
Definition TableRow := list TableRowCall.
Definition TableCell := list TableCellCall.
Definition createTable : Table := [].
Definition createTableRow : TableRow := [].
Definition createTableCell : TableCell := [].

Inductive LevelCall :=
| Level_suffix (s : LevelSuffixType.t)
| Level_bold
| Level_italic
| Level_size (size : Z)
| Level_fonts (f : RunFonts)
| Level_indent (left : Z) (kind : option SpecialIndentKind.t)
  (specialIndentSize : option Z).
Record Level := createLevel_
  { Level_id : Z; Level_start : Z; Level_format : string;
  Level_text : string; Level_jc : string; Level_calls : list LevelCall }.
Definition createLevel (id start : Z) (format text jc : string) : Level :=
  createLevel_ id start format text jc [].
Definition Level_call (l : Level) (k : LevelCall) : Level :=
  createLevel_ (Level_id l) (Level_start l) (Level_format l) (Level_text l)
  (Level_jc l) (Level_calls l ▸ k).

Inductive AbstractNumberingCall := AbstractNumbering_add_level (l : Level).
Record AbstractNumbering := createAbstractNumbering_
  { AbstractNumbering_id : Z;
  AbstractNumbering_calls : list AbstractNumberingCall }.
Definition createAbstractNumbering (id : Z) : AbstractNumbering :=
  createAbstractNumbering_ id [].
Definition AbstractNumbering_call (n : AbstractNumbering)
  (k : AbstractNumberingCall) : AbstractNumbering :=
  createAbstractNumbering_ (AbstractNumbering_id n) (AbstractNumbering_calls n ▸ k).

Inductive LevelOverrideCall :=
| LevelOverride_start (start : Z)
| LevelOverride_level (l : Level).
Record LevelOverride := createLevelOverride_
  { LevelOverride_level_ : Z; LevelOverride_calls : list LevelOverrideCall }.
Definition createLevelOverride (level : Z) : LevelOverride :=
  createLevelOverride_ level [].
Definition LevelOverride_call (o : LevelOverride) (k : LevelOverrideCall)
  : LevelOverride :=
  createLevelOverride_ (LevelOverride_level_ o) (LevelOverride_calls o ▸ k).

Inductive NumberingCall := Numbering_add_override (o : LevelOverride).
Record Numbering := createNumbering_
  { Numbering_id : Z; Numbering_abstractNumId : Z;
  Numbering_calls : list NumberingCall }.
Definition createNumbering (id abstractNumId : Z) : Numbering :=
  createNumbering_ id abstractNumId [].
Definition Numbering_call (n : Numbering) (k : NumberingCall) : Numbering :=
  createNumbering_ (Numbering_id n) (Numbering_abstractNumId n)
  (Numbering_calls n ▸ k).

Inductive PageMarginCall :=
| PageMargin_top (v : Z)
| PageMargin_left (v : Z)
| PageMargin_right (v : Z)
| PageMargin_bottom (v : Z)
| PageMargin_header (v : Z)
| PageMargin_footer (v : Z)
| PageMargin_gutter (v : Z).
Definition PageMargin := list PageMarginCall.
Definition createPageMargin : PageMargin := [].

Inductive WebExtensionCall := WebExtension_property (name value : string).
Record WebExtension := createWebExtension_
  { WebExtension_id : string; WebExtension_referenceId : string;
  WebExtension_version : string; WebExtension_store : string;
  WebExtension_storeType : string;
  WebExtension_calls : list WebExtensionCall }.
Definition createWebExtension (id referenceId version store storeType : string)
  : WebExtension :=
  createWebExtension_ id referenceId version store storeType [].
Definition WebExtension_call (e : WebExtension) (k : WebExtensionCall)
  : WebExtension :=
  createWebExtension_ (WebExtension_id e) (WebExtension_referenceId e)
  (WebExtension_version e) (WebExtension_store e) (WebExtension_storeType e)
  (WebExtension_calls e ▸ k).

Inductive DocxCall :=
| Docx_add_paragraph (p : Paragraph)
| Docx_add_table (t : Table)
| Docx_add_bookmark_start (id : Z) (name : string)
| Docx_add_bookmark_end (id : Z)
| Docx_add_abstract_numbering (n : AbstractNumbering)
| Docx_add_numbering (n : Numbering)
| Docx_doc_id (id : string)
| Docx_default_tab_stop (stop : Z)
| Docx_add_doc_var (name val : string)
| Docx_page_margin (m : PageMargin)
| Docx_page_size (w h : Z)
| Docx_page_orient (o : PageOrientationType.t)
| Docx_doc_grid (t : DocGridType.t) (linePitch charSpace : option Z)
| Docx_default_fonts (f : RunFonts)
| Docx_default_size (size : Z)
| Docx_default_spacing (spacing : Z)
| Docx_created_at (date : string)
| Docx_updated_at (date : string)
| Docx_custom_property (name item : string)
| Docx_taskpanes
| Docx_web_extension (e : WebExtension)
| Docx_add_custom_item (id xml : string).
Definition Docx := list DocxCall.
Definition createDocx : Docx := [].

End wasm.

(** ** String enums to wasm codes *)

Definition convertBorderType (t : string) : wasm.BorderType.t :=
  if String.eqb t "nil" then wasm.BorderType.Nil
  else if String.eqb t "none" then wasm.BorderType.None
  else if String.eqb t "single" then wasm.BorderType.Single
  else if String.eqb t "thick" then wasm.BorderType.Thick
  else if String.eqb t "double" then wasm.BorderType.Double
  else if String.eqb t "dotted" then wasm.BorderType.Dotted
  else if String.eqb t "dashed" then wasm.BorderType.Dashed
  else if String.eqb t "dotDash" then wasm.BorderType.DotDash
  else if String.eqb t "dotDotDash" then wasm.BorderType.DotDotDash
  else if String.eqb t "triple" then wasm.BorderType.Triple
  else wasm.BorderType.Single.

Definition convertWidthType (t : string) : wasm.WidthType.t :=
  if String.eqb t "nil" then wasm.WidthType.Nil
  else if String.eqb t "Pct" then wasm.WidthType.Pct
  else if String.eqb t "DXA" then wasm.WidthType.DXA
  else if String.eqb t "Auto" then wasm.WidthType.Auto
  else wasm.WidthType.DXA.


(** ** The JavaScript node classes

    The classes are imported by index.ts from sibling modules ([./run],
    [./paragraph], [./table-cell], ...) that are not among the sources.  Each
    is declared here with exactly the fields index.ts reads, under the names
    it reads them by. *)

Module RunFonts.
Record t := mk
  { _ascii : option string; _hiAnsi : option string;
    _cs : option string; _eastAsia : option string }.
End RunFonts.

Module TextBorder.
Record t := mk { borderType : string; color : string; space : Z; size : Z }.
End TextBorder.

Module RunProperty.
Record t := mk
  { size : option Z; color : option string; highlight : option string;
    vertAlign : option string; bold : bool; italic : bool;
    underline : option string; vanish : bool; spacing : option Z;
    textBorder : option TextBorder.t; fonts : option RunFonts.t }.
End RunProperty.

(** The members of [Run.children]: [Text | DeleteText | Tab | Break]. *)
Inductive RunChild :=
| Text (text : string)
| DeleteText (text : string)
| Tab
| Break (type : string).

Module Run.
Record t := mk { children : list RunChild; property : RunProperty.t }.
End Run.

Module Insert.
Record t := mk { run : Run.t; _author : option string; _date : option string }.
End Insert.

Module Delete.
Record t := mk { run : Run.t; _author : option string; _date : option string }.
End Delete.

Module BookmarkStart.
Record t := mk { id : Z; name : string }.
End BookmarkStart.

Module BookmarkEnd.
Record t := mk { id : Z }.
End BookmarkEnd.

Module CommentEnd.
Record t := mk { id : Z }.
End CommentEnd.

Module Indent.
Record t := mk
  { left : Z; specialIndentKind : option string; specialIndentSize : option Z }.
End Indent.

Module ParagraphNumbering.
Record t := mk { id : Z; level : Z }.
End ParagraphNumbering.

Module LineSpacing.
Record t := mk
  { before : option Z; after : option Z; line : option Z;
    lineRule : option string }.
End LineSpacing.

Module ParagraphProperty.
Record t := mk
  { align : option string; indent : option Indent.t;
    numbering : option ParagraphNumbering.t; styleId : option string;
    runProperty : RunProperty.t; lineSpacing : option LineSpacing.t;
    keepLines : bool; keepNext : bool; pageBreakBefore : bool;
    windowControl : bool }.
End ParagraphProperty.

Module TableCellBorder.
Record t := mk
  { position : string; _size : Z; _color : string; _border_type : string }.
End TableCellBorder.

Module TableCellBorders.
Record t := mk
  { top : option TableCellBorder.t; right : option TableCellBorder.t;
    bottom : option TableCellBorder.t; left : option TableCellBorder.t;
    insideH : option TableCellBorder.t; insideV : option TableCellBorder.t;
    tl2br : option TableCellBorder.t; tr2bl : option TableCellBorder.t }.
End TableCellBorders.

Module Shading.
Record t := mk { _type : string; _color : string; _fill : string }.
End Shading.

Module CellProperty.
Record t := mk
  { verticalMerge : option string; verticalAlign : option string;
    gridSpan : option Z; width : option Z; textDirection : option string;
    borders : option TableCellBorders.t; shading : option Shading.t }.
End CellProperty.

Module CellMargin.
Record t := mk { val : Z; type : string }.
End CellMargin.

Module CellMargins.
Record t := mk
  { top : CellMargin.t; right : CellMargin.t;
    bottom : CellMargin.t; left : CellMargin.t }.
End CellMargins.

Module TableProperty.
Record t := mk
  { indent : option Z; cellMargins : option CellMargins.t;
    align : option string; layout : option string }.
End TableProperty.

(** Paragraphs hold comments, comments hold paragraphs and tables, table
    cells hold paragraphs and tables: one mutual block.  Each [...Child] type
    is the union the source tells apart with [instanceof]. *)
Inductive Paragraph_ :=
| mkParagraph (hasNumberings : bool) (children : list ParagraphChild)
    (property : ParagraphProperty.t)
with ParagraphChild :=
| ParagraphChild_Run (r : Run.t)
| ParagraphChild_Insert (i : Insert.t)
| ParagraphChild_Delete (d : Delete.t)
| ParagraphChild_BookmarkStart (b : BookmarkStart.t)
| ParagraphChild_BookmarkEnd (b : BookmarkEnd.t)
| ParagraphChild_Comment (c : Comment_)
| ParagraphChild_CommentEnd (e : CommentEnd.t)
with Comment_ :=
| mkComment (id : Z) (children : list CommentChild)
    (_author _date : option string) (_parentCommentId : option Z)
with CommentChild :=
| CommentChild_Paragraph (p : Paragraph_)
| CommentChild_Table (t : Table_)
with Table_ :=
| mkTable (hasNumberings : bool) (rows : list TableRow_) (grid : list Z)
    (property : TableProperty.t)
with TableRow_ :=
| mkTableRow (cells : list TableCell_) (height : option Z) (hRule : option string)
with TableCell_ :=
| mkTableCell (children : list TableCellChild) (property : CellProperty.t)
with TableCellChild :=
| TableCellChild_Paragraph (p : Paragraph_)
| TableCellChild_Table (t : Table_).

Module Paragraph.
Definition t := Paragraph_.
Definition hasNumberings (p : t) : bool :=
  match p with mkParagraph h _ _ => h end.
Definition children (p : t) : list ParagraphChild :=
  match p with mkParagraph _ c _ => c end.
Definition property (p : t) : ParagraphProperty.t :=
  match p with mkParagraph _ _ q => q end.
End Paragraph.

Module Comment.
Definition t := Comment_.
Definition id (c : t) : Z := match c with mkComment i _ _ _ _ => i end.
Definition children (c : t) : list CommentChild :=
  match c with mkComment _ ch _ _ _ => ch end.
Definition _author (c : t) : option string :=
  match c with mkComment _ _ a _ _ => a end.
Definition _date (c : t) : option string :=
  match c with mkComment _ _ _ d _ => d end.
Definition _parentCommentId (c : t) : option Z :=
  match c with mkComment _ _ _ _ p => p end.
End Comment.

Module Table.
Definition t := Table_.
Definition hasNumberings (x : t) : bool :=
  match x with mkTable h _ _ _ => h end.
Definition rows (x : t) : list TableRow_ :=
  match x with mkTable _ r _ _ => r end.
Definition grid (x : t) : list Z := match x with mkTable _ _ g _ => g end.
Definition property (x : t) : TableProperty.t :=
  match x with mkTable _ _ _ p => p end.
End Table.

Module TableRow.
Definition t := TableRow_.
Definition cells (r : t) : list TableCell_ :=
  match r with mkTableRow c _ _ => c end.
Definition height (r : t) : option Z := match r with mkTableRow _ h _ => h end.
Definition hRule (r : t) : option string :=
  match r with mkTableRow _ _ h => h end.
End TableRow.

Module TableCell.
Definition t := TableCell_.
Definition children (c : t) : list TableCellChild :=
  match c with mkTableCell ch _ => ch end.
Definition property (c : t) : CellProperty.t :=
  match c with mkTableCell _ p => p end.
End TableCell.

Module LevelParagraphProperty.
Record t := mk { indent : option Indent.t }.
End LevelParagraphProperty.

Module Level.
Record t := mk
  { id : Z; start : Z; format : string; text : string; jc : string;
    levelSuffix : string; runProperty : RunProperty.t;
    paragraphProperty : LevelParagraphProperty.t }.
End Level.

Module AbstractNumbering.
Record t := mk { id : Z; levels : list Level.t }.
End AbstractNumbering.

(** The [levelOverride] member of a [LevelOverride], read by [createDocx] as
    [o.levelOverride.level], [.start], [.format], [.text], [.jc]. *)
Module OverrideLevel.
Record t := mk
  { level : Z; start : Z; format : string; text : string; jc : string }.
End OverrideLevel.

Module LevelOverride.
Record t := mk
  { level : Z; startOverride : option Z; levelOverride : option OverrideLevel.t }.
End LevelOverride.

Module Numbering.
Record t := mk { id : Z; abstractNumId : Z; overrides : list LevelOverride.t }.
End Numbering.

Module DocVar.
Record t := mk { name : string; val : string }.
End DocVar.

Module Settings.
Record t := mk
  { _docId : option string; _defaultTabStop : Z; _docVars : list DocVar.t }.
End Settings.

(** [_customProperties] is a JavaScript object used as a map; it is kept as
    the list [Object.entries] enumerates. *)
Module DocProps.
Record t := mk
  { _createdAt : option string; _updatedAt : option string;
    _customProperties : list (string * string) }.
End DocProps.

Module PageMargin.
Record t := mk
  { top : Z; left : Z; right : Z; bottom : Z; header : Z; footer : Z;
    gutter : Z }.
End PageMargin.

Module PageSize.
Record t := mk { w : Z; h : Z; orient : option string }.
End PageSize.

Module DocGrid.
Record t := mk
  { gridType : string; charSpace : option Z; linePitch : option Z }.
End DocGrid.

Module SectionProperty.
Record t := mk
  { _pageMargin : option PageMargin.t; _pageSize : option PageSize.t;
    _docGrid : option DocGrid.t }.
End SectionProperty.

Module DocDefaults.
Record t := mk { runProperty : option RunProperty.t }.
End DocDefaults.

Module Styles.
Record t := mk { docDefaults : option DocDefaults.t }.
End Styles.

Module WebExtension.
Record t := mk
  { _id : string; _referenceId : string; _version : string; _store : string;
    _storeType : string; properties : list (string * string) }.
End WebExtension.

Module CustomItem.
Record t := mk { id : string; xml : string }.
End CustomItem.

(** The members of [Docx.children]. *)
Inductive DocxChild :=
| DocxChild_Paragraph (p : Paragraph.t)
| DocxChild_Table (t : Table.t)
| DocxChild_BookmarkStart (b : BookmarkStart.t)
| DocxChild_BookmarkEnd (b : BookmarkEnd.t).

(** ** The translators: JavaScript nodes to wasm builder calls *)

(** Optional chaining, [o?.f]. *)
Definition chain {A B : Type} (o : option A) (f : A -> option B) : option B :=
  match o with Some a => f a | None => None end.

(** [new Uint32Array(xs)]: every element is reduced modulo [2^32]. *)
Definition Uint32Array (xs : list Z) : list Z :=
  map (fun x => x mod 2 ^ 32) xs.

Definition buildRunFonts (fonts : option RunFonts.t) : wasm.RunFonts :=
  let f := wasm.createRunFonts in
  let f := match truthyS (chain fonts RunFonts._ascii) with
           | Some a => f ▸ wasm.RunFonts_ascii a | None => f end in
  let f := match truthyS (chain fonts RunFonts._hiAnsi) with
           | Some a => f ▸ wasm.RunFonts_hi_ansi a | None => f end in
  let f := match truthyS (chain fonts RunFonts._cs) with
           | Some a => f ▸ wasm.RunFonts_cs a | None => f end in
  let f := match truthyS (chain fonts RunFonts._eastAsia) with
           | Some a => f ▸ wasm.RunFonts_east_asia a | None => f end in
  f.

(** The callback of [r.children.forEach] in [buildRun]. *)
Definition buildRun_child (run : wasm.Run) (child : RunChild) : wasm.Run :=
  match child with
  | Text text => run ▸ wasm.Run_add_text text
  | DeleteText text => run ▸ wasm.Run_add_delete_text text
  | Tab => run ▸ wasm.Run_add_tab
  | Break type =>
      if String.eqb type "column" then
        run ▸ wasm.Run_add_break wasm.BreakType.Column
      else if String.eqb type "page" then
        run ▸ wasm.Run_add_break wasm.BreakType.Page
      else if String.eqb type "textWrapping" then
        run ▸ wasm.Run_add_break wasm.BreakType.TextWrapping
      else run
  end.

Definition buildRun (r : Run.t) : wasm.Run :=
  let run := wasm.createRun in
  let run := fold_left buildRun_child (Run.children r) run in
  let property := Run.property r in
  let run := match RunProperty.size property with
             | Some size => run ▸ wasm.Run_size size | None => run end in
  let run := match truthyS (RunProperty.color property) with
             | Some c => run ▸ wasm.Run_color c | None => run end in
  let run := match truthyS (RunProperty.highlight property) with
             | Some c => run ▸ wasm.Run_highlight c | None => run end in
  let run := match truthyS (RunProperty.vertAlign property) with
             | Some v =>
                 if String.eqb v "superscript" then
                   run ▸ wasm.Run_vert_align wasm.VertAlignType.SuperScript
                 else if String.eqb v "subscript" then
                   run ▸ wasm.Run_vert_align wasm.VertAlignType.SubScript
                 else run
             | None => run end in
  let run := if RunProperty.bold property then run ▸ wasm.Run_bold else run in
  let run := if RunProperty.italic property then run ▸ wasm.Run_italic else run in
  let run := match truthyS (RunProperty.underline property) with
             | Some u => run ▸ wasm.Run_underline u | None => run end in
  let run := if RunProperty.vanish property then run ▸ wasm.Run_vanish else run in
  let run := match RunProperty.spacing property with
             | Some s => run ▸ wasm.Run_spacing s | None => run end in
  let run := match RunProperty.textBorder property with
             | Some b =>
                 run ▸ wasm.Run_text_border
                         (convertBorderType (TextBorder.borderType b))
                         (TextBorder.size b) (TextBorder.space b)
                         (TextBorder.color b)
             | None => run end in
  let fonts := buildRunFonts (RunProperty.fonts property) in
  let run := run ▸ wasm.Run_fonts fonts in
  run.

Definition buildInsert (i : Insert.t) : wasm.Insert :=
  let run := buildRun (Insert.run i) in
  let insert := wasm.createInsert run in
  let insert := match truthyS (Insert._author i) with
                | Some a => wasm.Insert_call insert (wasm.Insert_author a)
                | None => insert end in
  let insert := match truthyS (Insert._date i) with
                | Some d => wasm.Insert_call insert (wasm.Insert_date d)
                | None => insert end in
  insert.

Definition buildDelete (d : Delete.t) : wasm.Delete :=
  let run := buildRun (Delete.run d) in
  let del := wasm.createDelete run in
  let del := match truthyS (Delete._author d) with
             | Some a => wasm.Delete_call del (wasm.Delete_author a)
             | None => del end in
  let del := match truthyS (Delete._date d) with
             | Some x => wasm.Delete_call del (wasm.Delete_date x)
             | None => del end in
  del.

(** The border object each branch of [buildCellBorders] creates:
    [createTableCellBorder(pos).size(_size).color(_color).border_type(...)]. *)
Definition cellBorder (pos : wasm.TableCellBorderPosition.t)
    (b : TableCellBorder.t) : wasm.TableCellBorder :=
  wasm.TableCellBorder_call
    (wasm.TableCellBorder_call
       (wasm.TableCellBorder_call (wasm.createTableCellBorder pos)
          (wasm.TableCellBorder_size (TableCellBorder._size b)))
       (wasm.TableCellBorder_color (TableCellBorder._color b)))
    (wasm.TableCellBorder_border_type
       (convertBorderType (TableCellBorder._border_type b))).

(** One [if (js.property.borders.<slot>) { ...; cell = cell.set_border(border) }]. *)
Definition setCellBorder (pos : wasm.TableCellBorderPosition.t)
    (slot : option TableCellBorder.t) (cell : wasm.TableCell) : wasm.TableCell :=
  match slot with
  | Some b => cell ▸ wasm.TableCell_set_border (cellBorder pos b)
  | None => cell
  end.

(** [buildCellBorders(js, cell)] reads nothing of [js] but
    [js.property.borders], and its one caller, [buildCell], calls it only when
    that member is defined; the embedding takes the member itself. *)
Definition buildCellBorders (borders : TableCellBorders.t)
    (cell : wasm.TableCell) : wasm.TableCell :=
  let cell := setCellBorder wasm.TableCellBorderPosition.Top
                (TableCellBorders.top borders) cell in
  let cell := setCellBorder wasm.TableCellBorderPosition.Right
                (TableCellBorders.right borders) cell in
  let cell := setCellBorder wasm.TableCellBorderPosition.Bottom
                (TableCellBorders.bottom borders) cell in
  let cell := setCellBorder wasm.TableCellBorderPosition.Left
                (TableCellBorders.left borders) cell in
  let cell := setCellBorder wasm.TableCellBorderPosition.InsideH
                (TableCellBorders.insideH borders) cell in
  let cell := setCellBorder wasm.TableCellBorderPosition.InsideV
                (TableCellBorders.insideV borders) cell in
  let cell := setCellBorder wasm.TableCellBorderPosition.Tl2br
                (TableCellBorders.tl2br borders) cell in
  let cell := setCellBorder wasm.TableCellBorderPosition.Tr2bl
                (TableCellBorders.tr2bl borders) cell in
  cell.

(** The four font tests that [buildParagraph] and [buildLevel] spell out on a
    [fonts] object known to be present. *)
Definition runFontsOf (fonts : RunFonts.t) : wasm.RunFonts :=
  let f := wasm.createRunFonts in
  let f := match truthyS (RunFonts._ascii fonts) with
           | Some a => f ▸ wasm.RunFonts_ascii a | None => f end in
  let f := match truthyS (RunFonts._hiAnsi fonts) with
           | Some a => f ▸ wasm.RunFonts_hi_ansi a | None => f end in
  let f := match truthyS (RunFonts._cs fonts) with
           | Some a => f ▸ wasm.RunFonts_cs a | None => f end in
  let f := match truthyS (RunFonts._eastAsia fonts) with
           | Some a => f ▸ wasm.RunFonts_east_asia a | None => f end in
  f.

Definition specialIndentKindOf (k : option string)
  : option wasm.SpecialIndentKind.t :=
  match k with
  | Some s =>
      if String.eqb s "firstLine" then Some wasm.SpecialIndentKind.FirstLine
      else if String.eqb s "hanging" then Some wasm.SpecialIndentKind.Hanging
      else None
  | None => None
  end.

Definition buildLevel (l : Level.t) : wasm.Level :=
  let level := wasm.createLevel (Level.id l) (Level.start l) (Level.format l)
                 (Level.text l) (Level.jc l) in
  let level :=
    if String.eqb (Level.levelSuffix l) "nothing" then
      wasm.Level_call level (wasm.Level_suffix wasm.LevelSuffixType.Nothing)
    else if String.eqb (Level.levelSuffix l) "space" then
      wasm.Level_call level (wasm.Level_suffix wasm.LevelSuffixType.Space)
    else wasm.Level_call level (wasm.Level_suffix wasm.LevelSuffixType.Tab) in
  let level := if RunProperty.bold (Level.runProperty l)
               then wasm.Level_call level wasm.Level_bold else level in
  let level := if RunProperty.italic (Level.runProperty l)
               then wasm.Level_call level wasm.Level_italic else level in
  let level := match truthyZ (RunProperty.size (Level.runProperty l)) with
               | Some s => wasm.Level_call level (wasm.Level_size s)
               | None => level end in
  let level := match RunProperty.fonts (Level.runProperty l) with
               | Some fonts =>
                   wasm.Level_call level (wasm.Level_fonts (runFontsOf fonts))
               | None => level end in
  let level :=
    match LevelParagraphProperty.indent (Level.paragraphProperty l) with
    | Some indent =>
        let kind := specialIndentKindOf (Indent.specialIndentKind indent) in
        wasm.Level_call level
          (wasm.Level_indent (Indent.left indent) kind
             (Indent.specialIndentSize indent))
    | None => level
    end in
  level.

(** The second half of [buildParagraph]: everything after
    [p.children.forEach], which reads [p.property] only. *)
Definition buildParagraph_property (property : ParagraphProperty.t)
    (paragraph : wasm.Paragraph) : wasm.Paragraph :=
  let paragraph :=
    match ParagraphProperty.align property with
    | Some a =>
        if String.eqb a "center" then
          paragraph ▸ wasm.Paragraph_align wasm.AlignmentType.Center
        else if String.eqb a "right" then
          paragraph ▸ wasm.Paragraph_align wasm.AlignmentType.Right
        else if String.eqb a "justified" then
          paragraph ▸ wasm.Paragraph_align wasm.AlignmentType.Justified
        else if String.eqb a "left" then
          paragraph ▸ wasm.Paragraph_align wasm.AlignmentType.Left
        else if String.eqb a "distribute" then
          paragraph ▸ wasm.Paragraph_align wasm.AlignmentType.Distribute
        else if String.eqb a "both" then
          paragraph ▸ wasm.Paragraph_align wasm.AlignmentType.Both
        else if String.eqb a "end" then
          paragraph ▸ wasm.Paragraph_align wasm.AlignmentType.End_
        else paragraph
    | None => paragraph
    end in
  let paragraph :=
    match ParagraphProperty.indent property with
    | Some indent =>
        let kind := specialIndentKindOf (Indent.specialIndentKind indent) in
        paragraph ▸ wasm.Paragraph_indent (Indent.left indent) kind
                      (Indent.specialIndentSize indent)
    | None => paragraph
    end in
  let paragraph :=
    match ParagraphProperty.numbering property with
    | Some numbering =>
        paragraph ▸ wasm.Paragraph_numbering (ParagraphNumbering.id numbering)
                      (ParagraphNumbering.level numbering)
    | None => paragraph
    end in
  let paragraph :=
    match ParagraphProperty.styleId property with
    | Some s => paragraph ▸ wasm.Paragraph_style s
    | None => paragraph
    end in
  let runProperty := ParagraphProperty.runProperty property in
  let paragraph := if RunProperty.bold runProperty
                   then paragraph ▸ wasm.Paragraph_bold else paragraph in
  let paragraph :=
    match ParagraphProperty.lineSpacing property with
    | Some lineSpacing =>
        let kind :=
          match LineSpacing.lineRule lineSpacing with
          | Some r =>
              if String.eqb r "atLeast" then Some wasm.LineSpacingType.AtLeast
              else if String.eqb r "auto" then Some wasm.LineSpacingType.Auto
              else if String.eqb r "exact" then Some wasm.LineSpacingType.Exact
              else None
          | None => None
          end in
        paragraph ▸ wasm.Paragraph_line_spacing (LineSpacing.before lineSpacing)
                      (LineSpacing.after lineSpacing)
                      (LineSpacing.line lineSpacing) kind
    | None => paragraph
    end in
  let paragraph := if RunProperty.italic runProperty
                   then paragraph ▸ wasm.Paragraph_italic else paragraph in
  let paragraph := match truthyZ (RunProperty.size runProperty) with
                   | Some s => paragraph ▸ wasm.Paragraph_size s
                   | None => paragraph end in
  let paragraph := match RunProperty.fonts runProperty with
                   | Some fonts =>
                       paragraph ▸ wasm.Paragraph_fonts (runFontsOf fonts)
                   | None => paragraph end in
  let paragraph := if ParagraphProperty.keepLines property
                   then paragraph ▸ wasm.Paragraph_keep_lines true
                   else paragraph in
  let paragraph := if ParagraphProperty.keepNext property
                   then paragraph ▸ wasm.Paragraph_keep_next true
                   else paragraph in
  let paragraph := if ParagraphProperty.pageBreakBefore property
                   then paragraph ▸ wasm.Paragraph_page_break_before true
                   else paragraph in
  let paragraph := if ParagraphProperty.windowControl property
                   then paragraph ▸ wasm.Paragraph_window_control true
                   else paragraph in
  paragraph.

(** The end of the row callback in [buildTable]: height and height rule. *)
Definition buildTable_row_property (height : option Z) (hRule : option string)
    (row : wasm.TableRow) : wasm.TableRow :=
  let row := match truthyZ height with
             | Some h => row ▸ wasm.TableRow_row_height h | None => row end in
  let row :=
    match truthyS hRule with
    | Some r =>
        if String.eqb r "auto" then
          row ▸ wasm.TableRow_height_rule wasm.HeightRule.Auto
        else if String.eqb r "atLeast" then
          row ▸ wasm.TableRow_height_rule wasm.HeightRule.AtLeast
        else if String.eqb r "exact" then
          row ▸ wasm.TableRow_height_rule wasm.HeightRule.Exact
        else row
    | None => row
    end in
  row.

(** The second half of [buildTable]: everything after [t.rows.forEach]. *)
Definition buildTable_property (grid : list Z) (property : TableProperty.t)
    (table : wasm.Table) : wasm.Table :=
  let table := table ▸ wasm.Table_set_grid (Uint32Array grid) in
  let table :=
    table ▸ wasm.Table_indent
              (match truthyZ (TableProperty.indent property) with
               | Some i => i | None => 0 end) in
  let table :=
    match TableProperty.cellMargins property with
    | Some m =>
        table
          ▸ wasm.Table_cell_margin_top (CellMargin.val (CellMargins.top m))
              (convertWidthType (CellMargin.type (CellMargins.top m)))
          ▸ wasm.Table_cell_margin_right (CellMargin.val (CellMargins.right m))
              (convertWidthType (CellMargin.type (CellMargins.right m)))
          ▸ wasm.Table_cell_margin_bottom (CellMargin.val (CellMargins.bottom m))
              (convertWidthType (CellMargin.type (CellMargins.bottom m)))
          ▸ wasm.Table_cell_margin_left (CellMargin.val (CellMargins.left m))
              (convertWidthType (CellMargin.type (CellMargins.left m)))
    | None => table
    end in
  let table :=
    match TableProperty.align property with
    | Some a =>
        if String.eqb a "center" then
          table ▸ wasm.Table_align wasm.TableAlignmentType.Center
        else if String.eqb a "right" then
          table ▸ wasm.Table_align wasm.TableAlignmentType.Right
        else if String.eqb a "left" then
          table ▸ wasm.Table_align wasm.TableAlignmentType.Left
        else table
    | None => table
    end in
  let table :=
    match TableProperty.layout property with
    | Some l =>
        if String.eqb l "fixed" then
          table ▸ wasm.Table_layout wasm.TableLayoutType.Fixed
        else if String.eqb l "autofit" then
          table ▸ wasm.Table_layout wasm.TableLayoutType.Autofit
        else table
    | None => table
    end in
  table.

(** The second half of [buildCell]: everything after [c.children.forEach]. *)
Definition buildCell_property (property : CellProperty.t)
    (cell : wasm.TableCell) : wasm.TableCell :=
  let cell :=
    match CellProperty.verticalMerge property with
    | Some m =>
        if String.eqb m "continue" then
          cell ▸ wasm.TableCell_vertical_merge wasm.VMergeType.Continue
        else if String.eqb m "restart" then
          cell ▸ wasm.TableCell_vertical_merge wasm.VMergeType.Restart
        else cell
    | None => cell
    end in
  let cell :=
    match CellProperty.verticalAlign property with
    | Some a =>
        if String.eqb a "top" then
          cell ▸ wasm.TableCell_vertical_align wasm.VAlignType.Top
        else if String.eqb a "center" then
          cell ▸ wasm.TableCell_vertical_align wasm.VAlignType.Center
        else if String.eqb a "bottom" then
          cell ▸ wasm.TableCell_vertical_align wasm.VAlignType.Bottom
        else cell
    | None => cell
    end in
  let cell := match CellProperty.gridSpan property with
              | Some g => cell ▸ wasm.TableCell_grid_span g | None => cell end in
  let cell := match CellProperty.width property with
              | Some w => cell ▸ wasm.TableCell_width w | None => cell end in
  let cell :=
    match CellProperty.textDirection property with
    | Some d =>
        cell ▸ wasm.TableCell_text_direction (wasm.toTextDirectionWasmType d)
    | None => cell
    end in
  let cell := match CellProperty.borders property with
              | Some borders => buildCellBorders borders cell
              | None => cell end in
  let cell :=
    match CellProperty.shading property with
    | Some s =>
        cell ▸ wasm.TableCell_shading (Shading._type s) (Shading._color s)
                 (Shading._fill s)
    | None => cell
    end in
  cell.

(** The end of [buildComment]: author, date and parent comment id. *)
Definition buildComment_property (_author _date : option string)
    (_parentCommentId : option Z) (comment : wasm.Comment) : wasm.Comment :=
  let comment := match truthyS _author with
                 | Some a => wasm.Comment_call comment (wasm.Comment_author a)
                 | None => comment end in
  let comment := match truthyS _date with
                 | Some d => wasm.Comment_call comment (wasm.Comment_date d)
                 | None => comment end in
  let comment :=
    match truthyZ _parentCommentId with
    | Some p => wasm.Comment_call comment (wasm.Comment_parent_comment_id p)
    | None => comment
    end in
  comment.

(** [buildComment], [buildParagraph], [buildTable] and [buildCell] call each
    other along the node tree.  A [Table] child of a comment is skipped: the
    source's branch for it is empty. *)
Fixpoint buildParagraph (p : Paragraph.t) : wasm.Paragraph :=
  match p with
  | mkParagraph _ children property =>
      let paragraph := wasm.createParagraph in
      let paragraph :=
        fold_left
          (fun paragraph child =>
             match child with
             | ParagraphChild_Run r =>
                 let run := buildRun r in
                 paragraph ▸ wasm.Paragraph_add_run run
             | ParagraphChild_Insert i =>
                 let insert := buildInsert i in
                 paragraph ▸ wasm.Paragraph_add_insert insert
             | ParagraphChild_Delete d =>
                 let del := buildDelete d in
                 paragraph ▸ wasm.Paragraph_add_delete del
             | ParagraphChild_BookmarkStart b =>
                 paragraph ▸ wasm.Paragraph_add_bookmark_start
                               (BookmarkStart.id b) (BookmarkStart.name b)
             | ParagraphChild_BookmarkEnd b =>
                 paragraph ▸ wasm.Paragraph_add_bookmark_end (BookmarkEnd.id b)
             | ParagraphChild_Comment c =>
                 let comment := buildComment c in
                 paragraph ▸ wasm.Paragraph_add_comment_start comment
             | ParagraphChild_CommentEnd e =>
                 paragraph ▸ wasm.Paragraph_add_comment_end (CommentEnd.id e)
             end)
          children paragraph in
      buildParagraph_property property paragraph
  end
with buildComment (c : Comment.t) : wasm.Comment :=
  match c with
  | mkComment id children _author _date _parentCommentId =>
      let comment := wasm.createComment id in
      let comment :=
        fold_left
          (fun comment child =>
             match child with
             | CommentChild_Paragraph p =>
                 wasm.Comment_call comment
                   (wasm.Comment_add_paragraph (buildParagraph p))
             | CommentChild_Table _ => comment
             end)
          children comment in
      buildComment_property _author _date _parentCommentId comment
  end.

Fixpoint buildTable (t : Table.t) : wasm.Table :=
  match t with
  | mkTable _ rows grid property =>
      let table := wasm.createTable in
      let table :=
        fold_left
          (fun table r =>
             match r with
             | mkTableRow cells height hRule =>
                 let row := wasm.createTableRow in
                 let row :=
                   fold_left
                     (fun row c =>
                        let cell := buildCell c in
                        row ▸ wasm.TableRow_add_cell cell)
                     cells row in
                 let row := buildTable_row_property height hRule row in
                 table ▸ wasm.Table_add_row row
             end)
          rows table in
      buildTable_property grid property table
  end
with buildCell (c : TableCell.t) : wasm.TableCell :=
  match c with
  | mkTableCell children property =>
      let cell := wasm.createTableCell in
      let cell :=
        fold_left
          (fun cell c =>
             match c with
             | TableCellChild_Paragraph p =>
                 let paragraph := buildParagraph p in
                 cell ▸ wasm.TableCell_add_paragraph paragraph
             | TableCellChild_Table t =>
                 let table := buildTable t in
                 cell ▸ wasm.TableCell_add_table table
             end)
          children cell in
      buildCell_property property cell
  end.

(** ** Exceptions and the wasm heap *)

Inductive Exception :=
| ValidationError
| PackageError
| TypeError
| SyntaxError.

Inductive Outcome (A : Type) :=
| Return (a : A)
| Throw (e : Exception).
Arguments Return {A} a.
Arguments Throw {A} e.

(** Wasm objects live outside the JavaScript heap and are released by an
    explicit [free()].  Builder calls consume their receiver and arguments, so
    the only object [build] and [json] ever hold is the finished document;
    the heap records the documents that are alive, by pointer. *)
Module WasmHeap.
Record t := mk { next_ptr : nat; live : list (nat * wasm.Docx) }.
Definition empty : t := mk 0 [].
Definition alloc (d : wasm.Docx) (h : t) : nat * t :=
  (next_ptr h, mk (S (next_ptr h)) ((next_ptr h, d) :: live h)).
Definition free (p : nat) (h : t) : t :=
  mk (next_ptr h) (filter (fun e => negb (Nat.eqb (fst e) p)) (live h)).
Definition is_live (p : nat) (h : t) : bool :=
  existsb (fun e => Nat.eqb (fst e) p) (live h).
End WasmHeap.

(** ** Collaborators that are not among the sources

    [Docx] delegates a number of setters to [Settings], [DocProps],
    [SectionProperty] and [Styles], and creates one of each in its field
    initialisers.  Their code is in sibling modules; they are taken as
    parameters, each acting on its own object only. *)

Module PartialPageMargin.
Record t := mk
  { top : option Z; left : option Z; right : option Z; bottom : option Z;
    header : option Z; footer : option Z; gutter : option Z }.
End PartialPageMargin.

Class Collaborators := {
  new_Settings : Settings.t;
  new_DocProps : DocProps.t;
  new_SectionProperty : SectionProperty.t;
  new_Styles : Styles.t;
  Settings_docId : string -> Settings.t -> Settings.t;
  Settings_defaultTabStop : Z -> Settings.t -> Settings.t;
  Settings_addDocVar : string -> string -> Settings.t -> Settings.t;
  DocProps_createdAt : string -> DocProps.t -> DocProps.t;
  DocProps_updatedAt : string -> DocProps.t -> DocProps.t;
  DocProps_customProperty : string -> string -> DocProps.t -> DocProps.t;
  SectionProperty_pageSize : Z -> Z -> SectionProperty.t -> SectionProperty.t;
  SectionProperty_pageMargin :
    PartialPageMargin.t -> SectionProperty.t -> SectionProperty.t;
  SectionProperty_pageOrientation :
    string -> SectionProperty.t -> SectionProperty.t;
  SectionProperty_docGrid :
    string -> option Z -> option Z -> SectionProperty.t -> SectionProperty.t;
  Styles_defaultSize : Z -> Styles.t -> Styles.t;
  Styles_defaultFonts : RunFonts.t -> Styles.t -> Styles.t;
  Styles_defaultSpacing : Z -> Styles.t -> Styles.t
}.

(** ** The [Docx] class *)

Module Docx.

Record t := mk
  { children : list DocxChild;
    hasNumberings : bool;
    abstractNumberings : list AbstractNumbering.t;
    numberings : list Numbering.t;
    settings : Settings.t;
    docProps : DocProps.t;
    sectionProperty : SectionProperty.t;
    _taskpanes : bool;
    webextensions : list WebExtension.t;
    customItems : list CustomItem.t;
    styles : Styles.t }.

Definition with_children (v : list DocxChild) (d : t) : t :=
  mk v (hasNumberings d) (abstractNumberings d) (numberings d) (settings d)
    (docProps d) (sectionProperty d) (_taskpanes d) (webextensions d)
    (customItems d) (styles d).
Definition with_hasNumberings (v : bool) (d : t) : t :=
  mk (children d) v (abstractNumberings d) (numberings d) (settings d)
    (docProps d) (sectionProperty d) (_taskpanes d) (webextensions d)
    (customItems d) (styles d).
Definition with_abstractNumberings (v : list AbstractNumbering.t) (d : t) : t :=
  mk (children d) (hasNumberings d) v (numberings d) (settings d)
    (docProps d) (sectionProperty d) (_taskpanes d) (webextensions d)
    (customItems d) (styles d).
Definition with_numberings (v : list Numbering.t) (d : t) : t :=
  mk (children d) (hasNumberings d) (abstractNumberings d) v (settings d)
    (docProps d) (sectionProperty d) (_taskpanes d) (webextensions d)
    (customItems d) (styles d).
Definition with_settings (v : Settings.t) (d : t) : t :=
  mk (children d) (hasNumberings d) (abstractNumberings d) (numberings d) v
    (docProps d) (sectionProperty d) (_taskpanes d) (webextensions d)
    (customItems d) (styles d).
Definition with_docProps (v : DocProps.t) (d : t) : t :=
  mk (children d) (hasNumberings d) (abstractNumberings d) (numberings d)
    (settings d) v (sectionProperty d) (_taskpanes d) (webextensions d)
    (customItems d) (styles d).
Definition with_sectionProperty (v : SectionProperty.t) (d : t) : t :=
  mk (children d) (hasNumberings d) (abstractNumberings d) (numberings d)
    (settings d) (docProps d) v (_taskpanes d) (webextensions d)
    (customItems d) (styles d).
Definition with_taskpanes (v : bool) (d : t) : t :=
  mk (children d) (hasNumberings d) (abstractNumberings d) (numberings d)
    (settings d) (docProps d) (sectionProperty d) v (webextensions d)
    (customItems d) (styles d).
Definition with_webextensions (v : list WebExtension.t) (d : t) : t :=
  mk (children d) (hasNumberings d) (abstractNumberings d) (numberings d)
    (settings d) (docProps d) (sectionProperty d) (_taskpanes d) v
    (customItems d) (styles d).
Definition with_customItems (v : list CustomItem.t) (d : t) : t :=
  mk (children d) (hasNumberings d) (abstractNumberings d) (numberings d)
    (settings d) (docProps d) (sectionProperty d) (_taskpanes d)
    (webextensions d) v (styles d).
Definition with_styles (v : Styles.t) (d : t) : t :=
  mk (children d) (hasNumberings d) (abstractNumberings d) (numberings d)
    (settings d) (docProps d) (sectionProperty d) (_taskpanes d)
    (webextensions d) (customItems d) v.

(** [xs.push(x)]. *)
Definition push {A : Type} (xs : list A) (x : A) : list A := xs ++ [x].

Section Builder.
Context {collab : Collaborators}.

(** [new Docx()]: the field initialisers. *)
Definition new : t :=
  mk [] false [] [] new_Settings new_DocProps new_SectionProperty false [] []
    new_Styles.

(** Every method below ends in [return this]; the result is the instance
    after the call. *)

Definition addParagraph (p : Paragraph.t) (this : t) : t :=
  let this := if Paragraph.hasNumberings p
              then with_hasNumberings true this else this in
  with_children (push (children this) (DocxChild_Paragraph p)) this.

Definition addBookmarkStart (id : Z) (name : string) (this : t) : t :=
  with_children
    (push (children this) (DocxChild_BookmarkStart (BookmarkStart.mk id name)))
    this.

Definition addBookmarkEnd (id : Z) (this : t) : t :=
  with_children
    (push (children this) (DocxChild_BookmarkEnd (BookmarkEnd.mk id))) this.

Definition addTable (t0 : Table.t) (this : t) : t :=
  let this := if Table.hasNumberings t0
              then with_hasNumberings true this else this in
  with_children (push (children this) (DocxChild_Table t0)) this.

Definition addAbstractNumbering (num : AbstractNumbering.t) (this : t) : t :=
  with_abstractNumberings (push (abstractNumberings this) num) this.

Definition addNumbering (num : Numbering.t) (this : t) : t :=
  with_numberings (push (numberings this) num) this.

Definition docId (id : string) (this : t) : t :=
  with_settings (Settings_docId id (settings this)) this.

Definition defaultTabStop (stop : Z) (this : t) : t :=
  with_settings (Settings_defaultTabStop stop (settings this)) this.

Definition createdAt (date : string) (this : t) : t :=
  with_docProps (DocProps_createdAt date (docProps this)) this.

Definition customProperty (name item : string) (this : t) : t :=
  with_docProps (DocProps_customProperty name item (docProps this)) this.

Definition updatedAt (date : string) (this : t) : t :=
  with_docProps (DocProps_updatedAt date (docProps this)) this.

Definition addDocVar (name val : string) (this : t) : t :=
  with_settings (Settings_addDocVar name val (settings this)) this.

Definition pageSize (w h : Z) (this : t) : t :=
  with_sectionProperty (SectionProperty_pageSize w h (sectionProperty this)) this.

Definition pageMargin (margin : PartialPageMargin.t) (this : t) : t :=
  with_sectionProperty
    (SectionProperty_pageMargin margin (sectionProperty this)) this.

Definition pageOrientation (o : string) (this : t) : t :=
  with_sectionProperty
    (SectionProperty_pageOrientation o (sectionProperty this)) this.

Definition docGrid (type : string) (linePitch charSpace : option Z) (this : t)
  : t :=
  with_sectionProperty
    (SectionProperty_docGrid type linePitch charSpace (sectionProperty this))
    this.

Definition defaultSize (size : Z) (this : t) : t :=
  with_styles (Styles_defaultSize size (styles this)) this.

Definition defaultFonts (fonts : RunFonts.t) (this : t) : t :=
  with_styles (Styles_defaultFonts fonts (styles this)) this.

Definition defaultSpacing (spacing : Z) (this : t) : t :=
  with_styles (Styles_defaultSpacing spacing (styles this)) this.

Definition taskpanes (this : t) : t := with_taskpanes true this.

Definition webextension (e : WebExtension.t) (this : t) : t :=
  with_webextensions (push (webextensions this) e) this.

Definition addCustomItem (id xml : string) (this : t) : t :=
  with_customItems (push (customItems this) (CustomItem.mk id xml)) this.

End Builder.

(** *** [createDocx]

    The source is one method made of consecutive blocks, each of which
    reassigns [docx].  Every block is a definition here, in source order, and
    [createDocx] runs them in sequence. *)

(** [this.children.forEach(...)]. *)
Definition createDocx_children (this : t) (docx : wasm.Docx) : wasm.Docx :=
  fold_left
    (fun docx child =>
       match child with
       | DocxChild_Paragraph child =>
           let p := buildParagraph child in
           docx ▸ wasm.Docx_add_paragraph p
       | DocxChild_Table child =>
           let t := buildTable child in
           docx ▸ wasm.Docx_add_table t
       | DocxChild_BookmarkStart child =>
           docx ▸ wasm.Docx_add_bookmark_start (BookmarkStart.id child)
                    (BookmarkStart.name child)
       | DocxChild_BookmarkEnd child =>
           docx ▸ wasm.Docx_add_bookmark_end (BookmarkEnd.id child)
       end)
    (children this) docx.

(** The wasm abstract numbering made for [n]. *)
Definition createDocx_abstractNumbering (n : AbstractNumbering.t)
  : wasm.AbstractNumbering :=
  let num := wasm.createAbstractNumbering (AbstractNumbering.id n) in
  fold_left
    (fun num l =>
       let level := buildLevel l in
       wasm.AbstractNumbering_call num (wasm.AbstractNumbering_add_level level))
    (AbstractNumbering.levels n) num.

(** [this.abstractNumberings.forEach(...)]. *)
Definition createDocx_abstractNumberings (this : t) (docx : wasm.Docx)
  : wasm.Docx :=
  fold_left
    (fun docx n =>
       let num := createDocx_abstractNumbering n in
       docx ▸ wasm.Docx_add_abstract_numbering num)
    (abstractNumberings this) docx.

(** The wasm level override made for [o]. *)
Definition createDocx_levelOverride (o : LevelOverride.t) : wasm.LevelOverride :=
  let levelOverride := wasm.createLevelOverride (LevelOverride.level o) in
  let levelOverride :=
    match LevelOverride.startOverride o with
    | Some s => wasm.LevelOverride_call levelOverride (wasm.LevelOverride_start s)
    | None => levelOverride
    end in
  let levelOverride :=
    match LevelOverride.levelOverride o with
    | Some lo =>
        let level := wasm.createLevel (OverrideLevel.level lo)
                       (OverrideLevel.start lo) (OverrideLevel.format lo)
                       (OverrideLevel.text lo) (OverrideLevel.jc lo) in
        wasm.LevelOverride_call levelOverride (wasm.LevelOverride_level level)
    | None => levelOverride
    end in
  levelOverride.

(** The wasm numbering made for [n]. *)
Definition createDocx_numbering (n : Numbering.t) : wasm.Numbering :=
  let num := wasm.createNumbering (Numbering.id n) (Numbering.abstractNumId n) in
  fold_left
    (fun num o =>
       let levelOverride := createDocx_levelOverride o in
       wasm.Numbering_call num (wasm.Numbering_add_override levelOverride))
    (Numbering.overrides n) num.

(** [this.numberings.forEach(...)]. *)
Definition createDocx_numberings (this : t) (docx : wasm.Docx) : wasm.Docx :=
  fold_left
    (fun docx n =>
       let num := createDocx_numbering n in
       docx ▸ wasm.Docx_add_numbering num)
    (numberings this) docx.

(** Document id, default tab stop, document variables. *)
Definition createDocx_settings (this : t) (docx : wasm.Docx) : wasm.Docx :=
  let docx := match truthyS (Settings._docId (settings this)) with
              | Some id => docx ▸ wasm.Docx_doc_id id | None => docx end in
  let docx :=
    docx ▸ wasm.Docx_default_tab_stop (Settings._defaultTabStop (settings this)) in
  let docx :=
    fold_left
      (fun docx v => docx ▸ wasm.Docx_add_doc_var (DocVar.name v) (DocVar.val v))
      (Settings._docVars (settings this)) docx in
  docx.

(** [if (this.sectionProperty._pageMargin) ...]. *)
Definition createDocx_pageMargin (this : t) (docx : wasm.Docx) : wasm.Docx :=
  match SectionProperty._pageMargin (sectionProperty this) with
  | Some m =>
      let margin :=
        wasm.createPageMargin
          ▸ wasm.PageMargin_top (PageMargin.top m)
          ▸ wasm.PageMargin_left (PageMargin.left m)
          ▸ wasm.PageMargin_right (PageMargin.right m)
          ▸ wasm.PageMargin_bottom (PageMargin.bottom m)
          ▸ wasm.PageMargin_header (PageMargin.header m)
          ▸ wasm.PageMargin_footer (PageMargin.footer m)
          ▸ wasm.PageMargin_gutter (PageMargin.gutter m) in
      docx ▸ wasm.Docx_page_margin margin
  | None => docx
  end.

(** [if (this.sectionProperty._pageSize) ...]. *)
Definition createDocx_pageSize (this : t) (docx : wasm.Docx) : wasm.Docx :=
  match SectionProperty._pageSize (sectionProperty this) with
  | Some s =>
      let w := PageSize.w s in
      let h := PageSize.h s in
      let orient := PageSize.orient s in
      let docx := docx ▸ wasm.Docx_page_size w h in
      match orient with
      | Some o =>
          if String.eqb o "landscape" then
            docx ▸ wasm.Docx_page_orient wasm.PageOrientationType.Landscape
          else if String.eqb o "portrait" then
            docx ▸ wasm.Docx_page_orient wasm.PageOrientationType.Portrait
          else docx
      | None => docx
      end
  | None => docx
  end.

(** [if (this.sectionProperty._docGrid) ...]. *)
Definition createDocx_docGrid (this : t) (docx : wasm.Docx) : wasm.Docx :=
  match SectionProperty._docGrid (sectionProperty this) with
  | Some g =>
      let gridType := DocGrid.gridType g in
      let type :=
        if String.eqb gridType "lines" then wasm.DocGridType.Lines
        else if String.eqb gridType "linesAndChars" then
          wasm.DocGridType.LinesAndChars
        else if String.eqb gridType "snapToChars" then
          wasm.DocGridType.SnapToChars
        else wasm.DocGridType.Default in
      docx ▸ wasm.Docx_doc_grid type (DocGrid.linePitch g) (DocGrid.charSpace g)
  | None => docx
  end.

(** [if (this.styles?.docDefaults) ...].  [styles] is a class instance, so
    the optional chaining on it always goes through. *)
Definition createDocx_styles (this : t) (docx : wasm.Docx) : wasm.Docx :=
  match Styles.docDefaults (styles this) with
  | Some docDefaults =>
      let runProperty := DocDefaults.runProperty docDefaults in
      let docx :=
        match chain runProperty RunProperty.fonts with
        | Some f =>
            let fonts := buildRunFonts (Some f) in
            docx ▸ wasm.Docx_default_fonts fonts
        | None => docx
        end in
      let docx := match truthyZ (chain runProperty RunProperty.size) with
                  | Some s => docx ▸ wasm.Docx_default_size s
                  | None => docx end in
      let docx := match truthyZ (chain runProperty RunProperty.spacing) with
                  | Some s => docx ▸ wasm.Docx_default_spacing s
                  | None => docx end in
      docx
  | None => docx
  end.

(** Created and updated dates, custom properties, and the updated date a
    second time, as in the source. *)
Definition createDocx_docProps (this : t) (docx : wasm.Docx) : wasm.Docx :=
  let docx := match truthyS (DocProps._createdAt (docProps this)) with
              | Some d => docx ▸ wasm.Docx_created_at d | None => docx end in
  let docx := match truthyS (DocProps._updatedAt (docProps this)) with
              | Some d => docx ▸ wasm.Docx_updated_at d | None => docx end in
  let docx :=
    fold_left
      (fun docx kv => docx ▸ wasm.Docx_custom_property (fst kv) (snd kv))
      (DocProps._customProperties (docProps this)) docx in
  let docx := match truthyS (DocProps._updatedAt (docProps this)) with
              | Some d => docx ▸ wasm.Docx_updated_at d | None => docx end in
  docx.

(** The wasm web extension made for [e]. *)
Definition createDocx_webextension (e : WebExtension.t) : wasm.WebExtension :=
  let ext := wasm.createWebExtension (WebExtension._id e)
               (WebExtension._referenceId e) (WebExtension._version e)
               (WebExtension._store e) (WebExtension._storeType e) in
  fold_left
    (fun ext nv =>
       wasm.WebExtension_call ext (wasm.WebExtension_property (fst nv) (snd nv)))
    (WebExtension.properties e) ext.

(** [if (this._taskpanes) { docx.taskpanes(); for (const e of ...) ... }]. *)
Definition createDocx_taskpanes (this : t) (docx : wasm.Docx) : wasm.Docx :=
  if _taskpanes this then
    let docx := docx ▸ wasm.Docx_taskpanes in
    fold_left
      (fun docx e =>
         let ext := createDocx_webextension e in
         docx ▸ wasm.Docx_web_extension ext)
      (webextensions this) docx
  else docx.

(** [for (const item of this.customItems) ...]. *)
Definition createDocx_customItems (this : t) (docx : wasm.Docx) : wasm.Docx :=
  fold_left
    (fun docx item =>
       docx ▸ wasm.Docx_add_custom_item (CustomItem.id item) (CustomItem.xml item))
    (customItems this) docx.

Definition createDocx (this : t) : wasm.Docx :=
  let docx := wasm.createDocx in
  let docx := createDocx_children this docx in
  let docx := createDocx_abstractNumberings this docx in
  let docx := createDocx_numberings this docx in
  let docx := createDocx_settings this docx in
  let docx := createDocx_pageMargin this docx in
  let docx := createDocx_pageSize this docx in
  let docx := createDocx_docGrid this docx in
  let docx := createDocx_styles this docx in
  let docx := createDocx_docProps this docx in
  let docx := createDocx_taskpanes this docx in
  let docx := createDocx_customItems this docx in
  docx.

(** *** The terminal operations

    What the wasm document does in [build] and [json_with_update_comments]
    is Rust code; both are parameters, and so is [JSON.parse].  A result is the value
    returned or the exception thrown, the instance after the call, and the
    wasm heap after the call. *)

Record Result (A : Type) := mkResult
  { outcome : Outcome A; this_after : t; heap_after : WasmHeap.t }.

Section Terminal.
Variables Buf Json : Type.
Variable wasm_Docx_build : wasm.Docx -> bool -> Outcome Buf.
Variable wasm_Docx_json_with_update_comments : wasm.Docx -> string.
Variable JSON_parse : string -> Outcome Json.


(** When the wasm [build] throws, the exception leaves [build] before
    [docx.free()] is reached. *)
Definition build (this : t) (heap : WasmHeap.t) : Result Buf :=
  let '(docx, heap) := WasmHeap.alloc (createDocx this) heap in
  match wasm_Docx_build (createDocx this) (hasNumberings this) with
  | Throw e => mkResult (Throw e) this heap
  | Return buf =>
      let heap := WasmHeap.free docx heap in
      mkResult (Return buf) this heap
  end.

End Terminal.

End Docx.


(** ** What the wasm document received

    Projections of a wasm document's call list, used to state what
    [createDocx] hands over. *)

Definition received_page_sizes (d : wasm.Docx) : list (Z * Z) :=
  flat_map (fun c => match c with
                     | wasm.Docx_page_size w h => [(w, h)] | _ => [] end) d.

Definition received_page_orients (d : wasm.Docx)
  : list wasm.PageOrientationType.t :=
  flat_map (fun c => match c with
                     | wasm.Docx_page_orient o => [o] | _ => [] end) d.

Definition received_abstract_numberings (d : wasm.Docx)
  : list wasm.AbstractNumbering :=
  flat_map (fun c => match c with
                     | wasm.Docx_add_abstract_numbering n => [n] | _ => [] end) d.

Definition received_numberings (d : wasm.Docx) : list wasm.Numbering :=
  flat_map (fun c => match c with
                     | wasm.Docx_add_numbering n => [n] | _ => [] end) d.

Definition received_web_extensions (d : wasm.Docx) : list wasm.WebExtension :=
  flat_map (fun c => match c with
                     | wasm.Docx_web_extension e => [e] | _ => [] end) d.

Definition received_taskpanes_calls (d : wasm.Docx) : list unit :=
  flat_map (fun c => match c with wasm.Docx_taskpanes => [tt] | _ => [] end) d.

Definition received_taskpanes (d : wasm.Docx) : bool :=
  match received_taskpanes_calls d with [] => false | _ :: _ => true end.

Definition received_custom_items (d : wasm.Docx) : list (string * string) :=
  flat_map (fun c => match c with
                     | wasm.Docx_add_custom_item id xml => [(id, xml)]
                     | _ => [] end) d.

Definition received_custom_properties (d : wasm.Docx) : list (string * string) :=
  flat_map (fun c => match c with
                     | wasm.Docx_custom_property k v => [(k, v)]
                     | _ => [] end) d.

Definition received_created_at (d : wasm.Docx) : list string :=
  flat_map (fun c => match c with
                     | wasm.Docx_created_at s => [s] | _ => [] end) d.

Definition received_updated_at (d : wasm.Docx) : list string :=
  flat_map (fun c => match c with
                     | wasm.Docx_updated_at s => [s] | _ => [] end) d.

(** The [set_border] calls a wasm cell received for one position. *)
Definition received_borders (pos : wasm.TableCellBorderPosition.t)
    (cell : wasm.TableCell) : list wasm.TableCellBorder :=
  flat_map
    (fun c =>
       match c with
       | wasm.TableCell_set_border b =>
           if wasm.TableCellBorderPosition.eqb (wasm.TableCellBorder_position b) pos
           then [b] else []
       | _ => []
       end) cell.

(** The [add_break] calls a wasm run received. *)
Definition received_breaks (run : wasm.Run) : list wasm.BreakType.t :=
  flat_map (fun c => match c with
                     | wasm.Run_add_break t => [t] | _ => [] end) run.

(** Does a wasm paragraph, table, row or cell carry a comment start? *)
Definition Paragraph_uses_comment (p : wasm.Paragraph) : bool :=
  existsb (fun c => match c with
                    | wasm.Paragraph_add_comment_start _ => true
                    | _ => false end) p.

Fixpoint TableCall_uses_comment (c : wasm.TableCall) : bool :=
  match c with
  | wasm.Table_add_row r => existsb TableRowCall_uses_comment r
  | _ => false
  end
with TableRowCall_uses_comment (c : wasm.TableRowCall) : bool :=
  match c with
  | wasm.TableRow_add_cell cell => existsb TableCellCall_uses_comment cell
  | _ => false
  end
with TableCellCall_uses_comment (c : wasm.TableCellCall) : bool :=
  match c with
  | wasm.TableCell_add_paragraph p => Paragraph_uses_comment p
  | wasm.TableCell_add_table t => existsb TableCall_uses_comment t
  | _ => false
  end.

Definition received_comment (d : wasm.Docx) : bool :=
  existsb (fun c => match c with
                    | wasm.Docx_add_paragraph p => Paragraph_uses_comment p
                    | wasm.Docx_add_table t => existsb TableCall_uses_comment t
                    | _ => false end) d.

(** ** The wasm side, from the specification

    The Rust code behind [./pkg] is not among the sources.  Where a statement
    is about what that code produces, it is stated against the model below,
    which follows the specification's package layout (section 6), its
    assembler and allocator contracts (sections 4.2 and 4.4) and its error
    taxonomy (section 7).  The ZIP and XML writers are black boxes there; a
    package is its ordered list of entries and relationship targets. *)

Module WasmModel.

Inductive Content :=
| Xml (rendered_from : wasm.Docx)
| CoreProps (created updated : string)
| WebExtensionXml (e : wasm.WebExtension)
| CustomItemXml (id xml : string).

Record Entry := mkEntry { name : string; content : Content }.

Record Package := mkPackage
  { entries : list Entry; relationships : list string }.

Definition entry_names (p : Package) : list string := map name (entries p).

Definition decimal (n : nat) : string := NilEmpty.string_of_uint (Nat.to_uint n).

Definition webextension_part (n : nat) : string :=
  "webextensions/webextension" ++ decimal n ++ ".xml".

Definition customItem_part (n : nat) : string :=
  "customXml/item" ++ decimal n ++ ".xml".

Definition customItemProps_part (n : nat) : string :=
  "customXml/item" ++ decimal n ++ "Props/core.xml".

(** [xs] paired with the 1-based indices [k, k+1, ...]. *)
Fixpoint indexed_from {A : Type} (k : nat) (xs : list A) : list (nat * A) :=
  match xs with
  | [] => []
  | x :: xs => (k, x) :: indexed_from (S k) xs
  end.

(** Modelled from the spec: the referential invariant of section 3, "every
    Numbering.abstractNumId must reference an existing AbstractNumbering.id",
    checked on the numberings and abstract numberings the document holds. *)
Definition numbering_references_resolve (d : wasm.Docx) : bool :=
  forallb
    (fun n =>
       existsb (fun a => Z.eqb (wasm.AbstractNumbering_id a)
                           (wasm.Numbering_abstractNumId n))
         (received_abstract_numberings d))
    (received_numberings d).

(** Modelled from the spec: created and updated timestamps are the fields
    bound to wall-clock time (section 4.4); a date supplied by the caller
    takes its place. *)
Definition timestamp (supplied : list string) (now : string) : string :=
  last supplied now.

(** Modelled from the spec: the web-extension parts, "present iff task panes
    enabled", numbered by "a stable 1-based index" (sections 4.4 and 6). *)
Definition webextension_entries (d : wasm.Docx) : list Entry :=
  if received_taskpanes d then
    map (fun ne => mkEntry (webextension_part (fst ne)) (WebExtensionXml (snd ne)))
      (indexed_from 1 (received_web_extensions d))
  else [].

(** Modelled from the spec: "one triplet per custom item" (section 6): the
    item, its properties part, and a relationship. *)
Definition customItem_entries (d : wasm.Docx) : list Entry :=
  flat_map
    (fun ni =>
       [ mkEntry (customItem_part (fst ni))
           (CustomItemXml (fst (snd ni)) (snd (snd ni)));
         mkEntry (customItemProps_part (fst ni))
           (CustomItemXml (fst (snd ni)) (snd (snd ni))) ])
    (indexed_from 1 (received_custom_items d)).

(** Modelled from the spec: the package layout of section 6, in that order.
    [has_numberings] is the argument of the wasm [build]; [now] is the wall
    clock. *)
Definition package (now : string) (d : wasm.Docx) (has_numberings : bool)
  : Package :=
  let numbering :=
    if has_numberings then [mkEntry "word/numbering.xml" (Xml d)] else [] in
  let comments :=
    if received_comment d
    then [ mkEntry "word/comments.xml" (Xml d);
           mkEntry "word/commentsExtended.xml" (Xml d) ]
    else [] in
  let custom :=
    match received_custom_properties d with
    | [] => []
    | _ :: _ => [mkEntry "docProps/custom.xml" (Xml d)]
    end in
  let optional := (numbering ++ comments)%list in
  mkPackage
    ([ mkEntry "[Content_Types].xml" (Xml d);
       mkEntry "_rels/.rels" (Xml d);
       mkEntry "word/document.xml" (Xml d);
       mkEntry "word/_rels/document.xml.rels" (Xml d) ]
     ++ numbering ++ comments
     ++ [ mkEntry "word/styles.xml" (Xml d);
          mkEntry "word/settings.xml" (Xml d);
          mkEntry "docProps/core.xml"
            (CoreProps (timestamp (received_created_at d) now)
               (timestamp (received_updated_at d) now)) ]
     ++ custom ++ webextension_entries d ++ customItem_entries d)
    (map name (optional ++ webextension_entries d ++ customItem_entries d)).

(** Modelled from the spec: the wasm [build] "fails with ValidationError when
    a referenced id (numbering, abstract-numbering) does not exist in the
    tree" (sections 4.2 and 7) and otherwise returns the package. *)
Definition Docx_build (now : string) (d : wasm.Docx) (has_numberings : bool)
  : Outcome Package :=
  if numbering_references_resolve d
  then Return (package now d has_numberings)
  else Throw ValidationError.


End WasmModel.

(** ** Vocabulary of the statements *)

Definition recognized_border_types : list string :=
  ["nil"; "none"; "single"; "thick"; "double"; "dotted"; "dashed"; "dotDash";
   "dotDotDash"; "triple"].

Definition recognized_width_types : list string := ["nil"; "Pct"; "DXA"; "Auto"].

Definition recognized_break_types : list string :=
  ["column"; "page"; "textWrapping"].

(** The JavaScript border slot that [buildCellBorders] reads for a wasm
    border position. *)
Definition slot (pos : wasm.TableCellBorderPosition.t) (b : TableCellBorders.t)
  : option TableCellBorder.t :=
  match pos with
  | wasm.TableCellBorderPosition.Top => TableCellBorders.top b
  | wasm.TableCellBorderPosition.Right => TableCellBorders.right b
  | wasm.TableCellBorderPosition.Bottom => TableCellBorders.bottom b
  | wasm.TableCellBorderPosition.Left => TableCellBorders.left b
  | wasm.TableCellBorderPosition.InsideH => TableCellBorders.insideH b
  | wasm.TableCellBorderPosition.InsideV => TableCellBorders.insideV b
  | wasm.TableCellBorderPosition.Tl2br => TableCellBorders.tl2br b
  | wasm.TableCellBorderPosition.Tr2bl => TableCellBorders.tr2bl b
  end.

Definition no_borders : TableCellBorders.t :=
  TableCellBorders.mk None None None None None None None None.

(** Modelled from the spec: [TableCell.setBorder], which is in [./table-cell]
    and not among the sources.  A cell has one slot per edge, "per-edge
    borders {top,right,bottom,left,insideH,insideV,tl2br,tr2bl}" (section 3),
    and a border is stored in the slot its position names. *)
Definition setBorder (border : TableCellBorder.t) (c : TableCell.t) : TableCell.t :=
  let p := TableCell.property c in
  let b := match CellProperty.borders p with Some b => b | None => no_borders end in
  let pos := TableCellBorder.position border in
  let b :=
    if String.eqb pos "top" then
      TableCellBorders.mk (Some border) (TableCellBorders.right b)
        (TableCellBorders.bottom b) (TableCellBorders.left b)
        (TableCellBorders.insideH b) (TableCellBorders.insideV b)
        (TableCellBorders.tl2br b) (TableCellBorders.tr2bl b)
    else if String.eqb pos "right" then
      TableCellBorders.mk (TableCellBorders.top b) (Some border)
        (TableCellBorders.bottom b) (TableCellBorders.left b)
        (TableCellBorders.insideH b) (TableCellBorders.insideV b)
        (TableCellBorders.tl2br b) (TableCellBorders.tr2bl b)
    else if String.eqb pos "bottom" then
      TableCellBorders.mk (TableCellBorders.top b) (TableCellBorders.right b)
        (Some border) (TableCellBorders.left b)
        (TableCellBorders.insideH b) (TableCellBorders.insideV b)
        (TableCellBorders.tl2br b) (TableCellBorders.tr2bl b)
    else if String.eqb pos "left" then
      TableCellBorders.mk (TableCellBorders.top b) (TableCellBorders.right b)
        (TableCellBorders.bottom b) (Some border)
        (TableCellBorders.insideH b) (TableCellBorders.insideV b)
        (TableCellBorders.tl2br b) (TableCellBorders.tr2bl b)
    else if String.eqb pos "insideH" then
      TableCellBorders.mk (TableCellBorders.top b) (TableCellBorders.right b)
        (TableCellBorders.bottom b) (TableCellBorders.left b)
        (Some border) (TableCellBorders.insideV b)
        (TableCellBorders.tl2br b) (TableCellBorders.tr2bl b)
    else if String.eqb pos "insideV" then
      TableCellBorders.mk (TableCellBorders.top b) (TableCellBorders.right b)
        (TableCellBorders.bottom b) (TableCellBorders.left b)
        (TableCellBorders.insideH b) (Some border)
        (TableCellBorders.tl2br b) (TableCellBorders.tr2bl b)
    else if String.eqb pos "tl2br" then
      TableCellBorders.mk (TableCellBorders.top b) (TableCellBorders.right b)
        (TableCellBorders.bottom b) (TableCellBorders.left b)
        (TableCellBorders.insideH b) (TableCellBorders.insideV b)
        (Some border) (TableCellBorders.tr2bl b)
    else if String.eqb pos "tr2bl" then
      TableCellBorders.mk (TableCellBorders.top b) (TableCellBorders.right b)
        (TableCellBorders.bottom b) (TableCellBorders.left b)
        (TableCellBorders.insideH b) (TableCellBorders.insideV b)
        (TableCellBorders.tl2br b) (Some border)
    else b in
  mkTableCell (TableCell.children c)
    (CellProperty.mk (CellProperty.verticalMerge p) (CellProperty.verticalAlign p)
       (CellProperty.gridSpan p) (CellProperty.width p)
       (CellProperty.textDirection p) (Some b) (CellProperty.shading p)).

(** The builder methods of [Docx], as data: a program that composes a
    document is a list of calls on a fresh instance. *)
Inductive BuilderCall :=
| Call_addParagraph (p : Paragraph.t)
| Call_addBookmarkStart (id : Z) (name : string)
| Call_addBookmarkEnd (id : Z)
| Call_addTable (t : Table.t)
| Call_addAbstractNumbering (num : AbstractNumbering.t)
| Call_addNumbering (num : Numbering.t)
| Call_docId (id : string)
| Call_defaultTabStop (stop : Z)
| Call_createdAt (date : string)
| Call_customProperty (name item : string)
| Call_updatedAt (date : string)
| Call_addDocVar (name val : string)
| Call_pageSize (w h : Z)
| Call_pageMargin (margin : PartialPageMargin.t)
| Call_pageOrientation (o : string)
| Call_docGrid (type : string) (linePitch charSpace : option Z)
| Call_defaultSize (size : Z)
| Call_defaultFonts (fonts : RunFonts.t)
| Call_defaultSpacing (spacing : Z)
| Call_taskpanes
| Call_webextension (e : WebExtension.t)
| Call_addCustomItem (id xml : string).

Definition perform {collab : Collaborators} (this : Docx.t) (c : BuilderCall)
  : Docx.t :=
  match c with
  | Call_addParagraph p => Docx.addParagraph p this
  | Call_addBookmarkStart id name => Docx.addBookmarkStart id name this
  | Call_addBookmarkEnd id => Docx.addBookmarkEnd id this
  | Call_addTable t => Docx.addTable t this
  | Call_addAbstractNumbering num => Docx.addAbstractNumbering num this
  | Call_addNumbering num => Docx.addNumbering num this
  | Call_docId id => Docx.docId id this
  | Call_defaultTabStop stop => Docx.defaultTabStop stop this
  | Call_createdAt date => Docx.createdAt date this
  | Call_customProperty name item => Docx.customProperty name item this
  | Call_updatedAt date => Docx.updatedAt date this
  | Call_addDocVar name val => Docx.addDocVar name val this
  | Call_pageSize w h => Docx.pageSize w h this
  | Call_pageMargin margin => Docx.pageMargin margin this
  | Call_pageOrientation o => Docx.pageOrientation o this
  | Call_docGrid type linePitch charSpace =>
      Docx.docGrid type linePitch charSpace this
  | Call_defaultSize size => Docx.defaultSize size this
  | Call_defaultFonts fonts => Docx.defaultFonts fonts this
  | Call_defaultSpacing spacing => Docx.defaultSpacing spacing this
  | Call_taskpanes => Docx.taskpanes this
  | Call_webextension e => Docx.webextension e this
  | Call_addCustomItem id xml => Docx.addCustomItem id xml this
  end.

(** [new Docx()] followed by the calls, in order. *)
Definition composed {collab : Collaborators} (calls : list BuilderCall) : Docx.t :=
  fold_left perform calls Docx.new.

(** A call that adds a paragraph or a table whose own [hasNumberings] flag is
    set: a node that uses numbering. *)
Definition adds_numbering (c : BuilderCall) : bool :=
  match c with
  | Call_addParagraph p => Paragraph.hasNumberings p
  | Call_addTable t => Table.hasNumberings t
  | _ => false
  end.

Definition child_uses_numbering (c : DocxChild) : bool :=
  match c with
  | DocxChild_Paragraph p => Paragraph.hasNumberings p
  | DocxChild_Table t => Table.hasNumberings t
  | _ => false
  end.








Definition without_run_child (pre post : list RunChild) (r : Run.t) : Run.t :=
  Run.mk (pre ++ post) (Run.property r).

(** The cell with both diagonal slots emptied and every other slot kept. *)
Definition without_diagonals (c : TableCell.t) : TableCell.t :=
  let p := TableCell.property c in
  mkTableCell (TableCell.children c)
    (CellProperty.mk (CellProperty.verticalMerge p) (CellProperty.verticalAlign p)
       (CellProperty.gridSpan p) (CellProperty.width p)
       (CellProperty.textDirection p)
       (match CellProperty.borders p with
        | Some b =>
            Some (TableCellBorders.mk (TableCellBorders.top b)
                    (TableCellBorders.right b) (TableCellBorders.bottom b)
                    (TableCellBorders.left b) (TableCellBorders.insideH b)
                    (TableCellBorders.insideV b) None None)
        | None => None
        end)
       (CellProperty.shading p)).

(** The call [createDocx] makes for one member of [children]. *)
Definition child_call (child : DocxChild) : wasm.DocxCall :=
  match child with
  | DocxChild_Paragraph p => wasm.Docx_add_paragraph (buildParagraph p)
  | DocxChild_Table t => wasm.Docx_add_table (buildTable t)
  | DocxChild_BookmarkStart b =>
      wasm.Docx_add_bookmark_start (BookmarkStart.id b) (BookmarkStart.name b)
  | DocxChild_BookmarkEnd b => wasm.Docx_add_bookmark_end (BookmarkEnd.id b)
  end.


(** ** Sample documents, after the test suite *)

Definition plain_RunProperty : RunProperty.t :=
  RunProperty.mk None None None None false false None false None None None.

Definition plain_ParagraphProperty : ParagraphProperty.t :=
  ParagraphProperty.mk None None None None plain_RunProperty None
    false false false false.

Definition plain_CellProperty : CellProperty.t :=
  CellProperty.mk None None None None None None None.

(** [new Run().addText("Hello world!!")]. *)
Definition hello_run : Run.t := Run.mk [Text "Hello world!!"] plain_RunProperty.

(** [new Paragraph().addRun(...)]. *)
Definition hello_paragraph : Paragraph.t :=
  mkParagraph false [ParagraphChild_Run hello_run] plain_ParagraphProperty.

(** [new Paragraph().addRun(...).numbering(0, 0)]. *)
Definition numbered_paragraph : Paragraph.t :=
  mkParagraph true [ParagraphChild_Run hello_run]
    (ParagraphProperty.mk None None (Some (ParagraphNumbering.mk 0 0)) None
       plain_RunProperty None false false false false).

(** A run with a break of a kind the source does not know. *)
Definition odd_break_run : Run.t :=
  Run.mk [Text "a"; Break "line"; Text "b"] plain_RunProperty.

Definition plain_border (position : string) : TableCellBorder.t :=
  TableCellBorder.mk position 2 "000000" "single".

(** The third cell of the test "should write tl2br and tr2bl cells". *)
Definition diagonal_cell : TableCell.t :=
  setBorder (plain_border "tl2br")
    (setBorder (plain_border "tr2bl")
       (mkTableCell [TableCellChild_Paragraph hello_paragraph] plain_CellProperty)).

Definition blank_Docx : Docx.t :=
  Docx.mk [] false [] [] (Settings.mk None 840 []) (DocProps.mk None None [])
    (SectionProperty.mk None None None) false [] [] (Styles.mk None).

Definition hello_Docx : Docx.t :=
  Docx.with_children [DocxChild_Paragraph hello_paragraph] blank_Docx.

(** The test "should write page orientation". *)
Definition landscape_Docx : Docx.t :=
  Docx.with_sectionProperty
    (SectionProperty.mk None
       (Some (PageSize.mk 16838 11906 (Some "landscape"))) None)
    hello_Docx.

Definition sample_webextension : WebExtension.t :=
  WebExtension.mk "7f33b723-fb58-4524-8733-dbedc4b7c095" "abcd" "1.0.0.0"
    "developer" "Registry" [("hello", "world")].

(** [new Docx().addParagraph(p).taskpanes()]: task panes, no web extension. *)
Definition taskpanes_only_Docx : Docx.t := Docx.with_taskpanes true hello_Docx.

(** [new Docx().addParagraph(p).webextension(e)]: a web extension, no task
    panes. *)
Definition unregistered_Docx : Docx.t :=
  Docx.with_webextensions [sample_webextension] hello_Docx.

(** The test "should write webextension". *)
Definition webextension_Docx : Docx.t :=
  Docx.with_webextensions [sample_webextension] taskpanes_only_Docx.

(** A numbering whose abstract numbering, 7, is not defined. *)
Definition dangling_Docx : Docx.t :=
  Docx.with_numberings [Numbering.mk 0 7 []]
    (Docx.with_abstractNumberings [AbstractNumbering.mk 0 []] hello_Docx).

(** The test "should write lvlOverride with level". *)
Definition override_Docx : Docx.t :=
  Docx.with_numberings
    [Numbering.mk 0 0
       [LevelOverride.mk 0 None
          (Some (OverrideLevel.mk 0 3 "decimal" "%1" "left"))]]
    (Docx.with_abstractNumberings [AbstractNumbering.mk 0 []]
       (Docx.with_hasNumberings true
          (Docx.with_children [DocxChild_Paragraph numbered_paragraph]
             blank_Docx))).

(** Both dates supplied by the caller. *)
Definition dated_Docx : Docx.t :=
  Docx.with_docProps
    (DocProps.mk (Some "2019-01-01T00:00:00Z") (Some "2019-01-02T00:00:00Z") [])
    hello_Docx.

(** Modelled from the spec: the setters of [Settings], [DocProps],
    [SectionProperty] and [Styles], which are not among the sources, as plain
    stores into the fields section 3 lists; used to run the examples. *)
#[local] Instance sample_collaborators : Collaborators := {|
  new_Settings := Settings.mk None 840 [];
  new_DocProps := DocProps.mk None None [];
  new_SectionProperty := SectionProperty.mk None None None;
  new_Styles := Styles.mk None;
  Settings_docId := fun id s =>
    Settings.mk (Some id) (Settings._defaultTabStop s) (Settings._docVars s);
  Settings_defaultTabStop := fun stop s =>
    Settings.mk (Settings._docId s) stop (Settings._docVars s);
  Settings_addDocVar := fun name val s =>
    Settings.mk (Settings._docId s) (Settings._defaultTabStop s)
      (Settings._docVars s ++ [DocVar.mk name val]);
  DocProps_createdAt := fun date p =>
    DocProps.mk (Some date) (DocProps._updatedAt p) (DocProps._customProperties p);
  DocProps_updatedAt := fun date p =>
    DocProps.mk (DocProps._createdAt p) (Some date) (DocProps._customProperties p);
  DocProps_customProperty := fun name item p =>
    DocProps.mk (DocProps._createdAt p) (DocProps._updatedAt p)
      (DocProps._customProperties p ++ [(name, item)]);
  SectionProperty_pageSize := fun w h s =>
    SectionProperty.mk (SectionProperty._pageMargin s)
      (Some (PageSize.mk w h (chain (SectionProperty._pageSize s) PageSize.orient)))
      (SectionProperty._docGrid s);
  SectionProperty_pageMargin := fun m s =>
    let old := match SectionProperty._pageMargin s with
               | Some old => old
               | None => PageMargin.mk 0 0 0 0 0 0 0 end in
    let pick (o : option Z) (d : Z) := match o with Some v => v | None => d end in
    SectionProperty.mk
      (Some (PageMargin.mk
               (pick (PartialPageMargin.top m) (PageMargin.top old))
               (pick (PartialPageMargin.left m) (PageMargin.left old))
               (pick (PartialPageMargin.right m) (PageMargin.right old))
               (pick (PartialPageMargin.bottom m) (PageMargin.bottom old))
               (pick (PartialPageMargin.header m) (PageMargin.header old))
               (pick (PartialPageMargin.footer m) (PageMargin.footer old))
               (pick (PartialPageMargin.gutter m) (PageMargin.gutter old))))
      (SectionProperty._pageSize s) (SectionProperty._docGrid s);
  SectionProperty_pageOrientation := fun o s =>
    SectionProperty.mk (SectionProperty._pageMargin s)
      (match SectionProperty._pageSize s with
       | Some p => Some (PageSize.mk (PageSize.w p) (PageSize.h p) (Some o))
       | None => None end)
      (SectionProperty._docGrid s);
  SectionProperty_docGrid := fun type linePitch charSpace s =>
    SectionProperty.mk (SectionProperty._pageMargin s)
      (SectionProperty._pageSize s)
      (Some (DocGrid.mk type charSpace linePitch));
  Styles_defaultSize := fun size s =>
    let r := match chain (Styles.docDefaults s) DocDefaults.runProperty with
             | Some r => r | None => plain_RunProperty end in
    Styles.mk (Some (DocDefaults.mk (Some
      (RunProperty.mk (Some size) (RunProperty.color r) (RunProperty.highlight r)
         (RunProperty.vertAlign r) (RunProperty.bold r) (RunProperty.italic r)
         (RunProperty.underline r) (RunProperty.vanish r) (RunProperty.spacing r)
         (RunProperty.textBorder r) (RunProperty.fonts r)))));
  Styles_defaultFonts := fun fonts s =>
    let r := match chain (Styles.docDefaults s) DocDefaults.runProperty with
             | Some r => r | None => plain_RunProperty end in
    Styles.mk (Some (DocDefaults.mk (Some
      (RunProperty.mk (RunProperty.size r) (RunProperty.color r)
         (RunProperty.highlight r) (RunProperty.vertAlign r) (RunProperty.bold r)
         (RunProperty.italic r) (RunProperty.underline r) (RunProperty.vanish r)
         (RunProperty.spacing r) (RunProperty.textBorder r) (Some fonts)))));
  Styles_defaultSpacing := fun spacing s =>
    let r := match chain (Styles.docDefaults s) DocDefaults.runProperty with
             | Some r => r | None => plain_RunProperty end in
    Styles.mk (Some (DocDefaults.mk (Some
      (RunProperty.mk (RunProperty.size r) (RunProperty.color r)
         (RunProperty.highlight r) (RunProperty.vertAlign r) (RunProperty.bold r)
         (RunProperty.italic r) (RunProperty.underline r) (RunProperty.vanish r)
         (Some spacing) (RunProperty.textBorder r) (RunProperty.fonts r)))))
|}.

(** The test "should write lvlOverride with level", as calls. *)
Definition override_calls : list BuilderCall :=
  [ Call_addParagraph numbered_paragraph;
    Call_addAbstractNumbering (AbstractNumbering.mk 0 []);
    Call_addNumbering
      (Numbering.mk 0 0
         [LevelOverride.mk 0 None
            (Some (OverrideLevel.mk 0 3 "decimal" "%1" "left"))]) ].

(** Stand-ins for the wasm functions, for running the parametric
    statements: [build] returns the document's call count, nothing throws. *)
Definition counting_build (d : wasm.Docx) (has_numberings : bool) : Outcome nat :=
  Return (List.length d).

(** ** Further projections of what wasm objects received *)

(** The member of [children] a builder call adds, if any. *)
Definition child_of_call (c : BuilderCall) : list DocxChild :=
  match c with
  | Call_addParagraph p => [DocxChild_Paragraph p]
  | Call_addBookmarkStart id name =>
      [DocxChild_BookmarkStart (BookmarkStart.mk id name)]
  | Call_addBookmarkEnd id => [DocxChild_BookmarkEnd (BookmarkEnd.mk id)]
  | Call_addTable t => [DocxChild_Table t]
  | _ => []
  end.

Definition abstractNumbering_of_call (c : BuilderCall)
  : list AbstractNumbering.t :=
  match c with Call_addAbstractNumbering n => [n] | _ => [] end.

Definition numbering_of_call (c : BuilderCall) : list Numbering.t :=
  match c with Call_addNumbering n => [n] | _ => [] end.

Definition webextension_of_call (c : BuilderCall) : list WebExtension.t :=
  match c with Call_webextension e => [e] | _ => [] end.

Definition customItem_of_call (c : BuilderCall) : list CustomItem.t :=
  match c with Call_addCustomItem id xml => [CustomItem.mk id xml] | _ => [] end.

Definition is_taskpanes_call (c : BuilderCall) : bool :=
  match c with Call_taskpanes => true | _ => false end.

(** The calls [buildRun] makes for one member of [children]. *)
Definition run_child_calls (child : RunChild) : list wasm.RunCall :=
  match child with
  | Text text => [wasm.Run_add_text text]
  | DeleteText text => [wasm.Run_add_delete_text text]
  | Tab => [wasm.Run_add_tab]
  | Break type =>
      if String.eqb type "column" then [wasm.Run_add_break wasm.BreakType.Column]
      else if String.eqb type "page" then [wasm.Run_add_break wasm.BreakType.Page]
      else if String.eqb type "textWrapping" then
        [wasm.Run_add_break wasm.BreakType.TextWrapping]
      else []
  end.

(** The content calls of a wasm run: texts, deleted texts, tabs, breaks. *)
Definition received_run_content (run : wasm.Run) : list wasm.RunCall :=
  flat_map (fun c => match c with
                     | wasm.Run_add_text _ | wasm.Run_add_delete_text _
                     | wasm.Run_add_tab | wasm.Run_add_break _ => [c]
                     | _ => [] end) run.

Definition received_run_sizes (run : wasm.Run) : list Z :=
  flat_map (fun c => match c with wasm.Run_size s => [s] | _ => [] end) run.

Definition received_run_spacings (run : wasm.Run) : list Z :=
  flat_map (fun c => match c with wasm.Run_spacing s => [s] | _ => [] end) run.

Definition Comment_calls (c : wasm.Comment) : list wasm.CommentCall :=
  match c with wasm.createComment_ _ calls => calls end.

Definition Comment_id (c : wasm.Comment) : Z :=
  match c with wasm.createComment_ id _ => id end.

Definition received_parent_comment_ids (c : wasm.Comment) : list Z :=
  flat_map (fun k => match k with
                     | wasm.Comment_parent_comment_id p => [p] | _ => [] end)
    (Comment_calls c).

(** The paragraph children of a comment, in order. *)
Definition comment_paragraphs (children : list CommentChild) : list CommentChild :=
  filter (fun child => match child with
                       | CommentChild_Paragraph _ => true
                       | CommentChild_Table _ => false end) children.

Definition received_grids (t : wasm.Table) : list (list Z) :=
  flat_map (fun c => match c with wasm.Table_set_grid g => [g] | _ => [] end) t.

Definition received_rows (t : wasm.Table) : list wasm.TableRow :=
  flat_map (fun c => match c with wasm.Table_add_row r => [r] | _ => [] end) t.

Definition received_table_indents (t : wasm.Table) : list Z :=
  flat_map (fun c => match c with wasm.Table_indent v => [v] | _ => [] end) t.

Definition received_cells (r : wasm.TableRow) : list wasm.TableCell :=
  flat_map (fun c => match c with wasm.TableRow_add_cell x => [x] | _ => [] end) r.

(** The wasm row [buildTable] makes for one row. *)
Definition buildTable_row (r : TableRow.t) : wasm.TableRow :=
  buildTable_row_property (TableRow.height r) (TableRow.hRule r)
    (map (fun c => wasm.TableRow_add_cell (buildCell c)) (TableRow.cells r)).

(** The positions of the [set_border] calls a wasm cell received, in call
    order. *)
Definition received_border_positions (cell : wasm.TableCell)
  : list wasm.TableCellBorderPosition.t :=
  flat_map (fun c => match c with
                     | wasm.TableCell_set_border b =>
                         [wasm.TableCellBorder_position b]
                     | _ => [] end) cell.

(** The order in which [buildCellBorders] visits the slots. *)
Definition border_order : list wasm.TableCellBorderPosition.t :=
  [ wasm.TableCellBorderPosition.Top; wasm.TableCellBorderPosition.Right;
    wasm.TableCellBorderPosition.Bottom; wasm.TableCellBorderPosition.Left;
    wasm.TableCellBorderPosition.InsideH; wasm.TableCellBorderPosition.InsideV;
    wasm.TableCellBorderPosition.Tl2br; wasm.TableCellBorderPosition.Tr2bl ].

Definition slot_filled (b : TableCellBorders.t)
    (pos : wasm.TableCellBorderPosition.t) : bool :=
  match slot pos b with Some _ => true | None => false end.

Definition received_suffixes (l : wasm.Level) : list wasm.LevelSuffixType.t :=
  flat_map (fun c => match c with wasm.Level_suffix s => [s] | _ => [] end)
    (wasm.Level_calls l).

Definition received_doc_grids (d : wasm.Docx)
  : list (wasm.DocGridType.t * option Z * option Z) :=
  flat_map (fun c => match c with
                     | wasm.Docx_doc_grid t linePitch charSpace =>
                         [(t, linePitch, charSpace)]
                     | _ => [] end) d.

Definition received_paragraph_numberings (p : wasm.Paragraph) : list (Z * Z) :=
  flat_map (fun c => match c with
                     | wasm.Paragraph_numbering id level => [(id, level)]
                     | _ => [] end) p.

Definition received_aligns (p : wasm.Paragraph) : list wasm.AlignmentType.t :=
  flat_map (fun c => match c with wasm.Paragraph_align a => [a] | _ => [] end) p.

Definition received_paragraph_sizes (p : wasm.Paragraph) : list Z :=
  flat_map (fun c => match c with wasm.Paragraph_size s => [s] | _ => [] end) p.

Definition recognized_aligns : list string :=
  ["center"; "right"; "justified"; "left"; "distribute"; "both"; "end"].

Definition received_tab_stops (d : wasm.Docx) : list Z :=
  flat_map (fun c => match c with
                     | wasm.Docx_default_tab_stop s => [s] | _ => [] end) d.

Definition received_doc_ids (d : wasm.Docx) : list string :=
  flat_map (fun c => match c with wasm.Docx_doc_id s => [s] | _ => [] end) d.

Definition received_doc_vars (d : wasm.Docx) : list (string * string) :=
  flat_map (fun c => match c with
                     | wasm.Docx_add_doc_var n v => [(n, v)] | _ => [] end) d.

(** A table whose cells hold a nested table, after the test "should write
    nested table", with a grid that does not fit 32 bits. *)
Definition wide_grid_table : Table.t :=
  mkTable false
    [mkTableRow
       [mkTableCell [TableCellChild_Paragraph hello_paragraph] plain_CellProperty]
       None None]
    [2000; -1; 4294967296] (TableProperty.mk None None None None).

(** A comment that answers comment 0 and holds a table. *)
Definition reply_to_zero : Comment.t :=
  mkComment 1
    [CommentChild_Paragraph hello_paragraph; CommentChild_Table wide_grid_table]
    (Some "author") None (Some 0).

(** The call [buildParagraph] makes for one member of [children]. *)
Definition paragraph_child_call (child : ParagraphChild) : wasm.ParagraphCall :=
  match child with
  | ParagraphChild_Run r => wasm.Paragraph_add_run (buildRun r)
  | ParagraphChild_Insert i => wasm.Paragraph_add_insert (buildInsert i)
  | ParagraphChild_Delete d => wasm.Paragraph_add_delete (buildDelete d)
  | ParagraphChild_BookmarkStart b =>
      wasm.Paragraph_add_bookmark_start (BookmarkStart.id b) (BookmarkStart.name b)
  | ParagraphChild_BookmarkEnd b =>
      wasm.Paragraph_add_bookmark_end (BookmarkEnd.id b)
  | ParagraphChild_Comment c => wasm.Paragraph_add_comment_start (buildComment c)
  | ParagraphChild_CommentEnd e =>
      wasm.Paragraph_add_comment_end (CommentEnd.id e)
  end.

(** The content calls of a wasm paragraph: runs, insertions, deletions,
    bookmarks and comment marks. *)
Definition received_paragraph_content (p : wasm.Paragraph)
  : list wasm.ParagraphCall :=
  flat_map (fun c => match c with
                     | wasm.Paragraph_add_run _ | wasm.Paragraph_add_insert _
                     | wasm.Paragraph_add_delete _
                     | wasm.Paragraph_add_bookmark_start _ _
                     | wasm.Paragraph_add_bookmark_end _
                     | wasm.Paragraph_add_comment_start _
                     | wasm.Paragraph_add_comment_end _ => [c]
                     | _ => [] end) p.

Definition received_text_borders (run : wasm.Run)
  : list (wasm.BorderType.t * Z * Z * string) :=
  flat_map (fun c => match c with
                     | wasm.Run_text_border t size space color =>
                         [(t, size, space, color)]
                     | _ => [] end) run.

(** [new Run().addText("World!").textBorder("wavy", 4, 0, "auto")]. *)
Definition wavy_border_run : Run.t :=
  Run.mk [Text "World!"]
    (RunProperty.mk None None None None false false None false None
       (Some (TextBorder.mk "wavy" "auto" 0 4)) None).

(** ** Proof tactics *)

(** Names the value of the outermost [let] of the goal, so that a chain of
    reassignments can be walked one assignment at a time. *)
Ltac name_let v :=
  match goal with
  | |- context G [let x := ?a in @?f x] =>
      pose (v := a);
      let g := context G [f v] in
      change g; cbv beta
  end.

(** Splits on every test of the goal, innermost-first. *)
Ltac split_tests :=
  repeat match goal with
         | |- context [match ?x with _ => _ end] => destruct x
         end.

(** * Properties *)

(** ** Lists of calls *)

Lemma call_app {C : Type} (o : list C) (c : C) : o ▸ c = (o ++ [c])%list.
Proof. reflexivity. Qed.

(** A [forEach] whose callback adds one call per element appends the image
    of the list. *)
Lemma fold_left_calls {A C : Type} (step : list C -> A -> list C) (g : A -> C) :
  (forall o x, step o x = o ▸ g x) ->
  forall xs o, fold_left step xs o = (o ++ map g xs)%list.
Proof.
  intros Hstep xs; induction xs as [|x xs IH]; intros o; simpl.
  - now rewrite app_nil_r.
  - rewrite IH, Hstep, call_app, <- app_assoc. reflexivity.
Qed.

Lemma flat_map_map_nil {A B C : Type} (f : B -> list C) (g : A -> B) xs :
  (forall x, f (g x) = []) -> flat_map f (map g xs) = [].
Proof.
  intros H; induction xs as [|x xs IH]; simpl; [reflexivity|].
  now rewrite H, IH.
Qed.

Lemma flat_map_map_singleton {A B C : Type} (f : B -> list C) (g : A -> B)
    (h : A -> C) xs :
  (forall x, f (g x) = [h x]) -> flat_map f (map g xs) = map h xs.
Proof.
  intros H; induction xs as [|x xs IH]; simpl; [reflexivity|].
  now rewrite H, IH.
Qed.

Lemma existsb_map_false {A B : Type} (f : B -> bool) (g : A -> B) xs :
  (forall x, f (g x) = false) -> existsb f (map g xs) = false.
Proof.
  intros H; induction xs as [|x xs IH]; simpl; [reflexivity|].
  now rewrite H, IH.
Qed.

(** ** The test suite's documents *)

(** "should write hello": what the wasm document receives. *)
Example hello_Docx_created :
  Docx.createDocx hello_Docx
  = [ wasm.Docx_add_paragraph
        [wasm.Paragraph_add_run
           [wasm.Run_add_text "Hello world!!"; wasm.Run_fonts []]];
      wasm.Docx_default_tab_stop 840 ].
Proof. reflexivity. Qed.

(** "should write nested table": the inner table is a call on the outer
    table's cell. *)
Example nested_table_built :
  buildTable
    (mkTable false
       [mkTableRow
          [mkTableCell
             [TableCellChild_Table
                (mkTable false
                   [mkTableRow
                      [mkTableCell [TableCellChild_Paragraph hello_paragraph]
                         plain_CellProperty] None None]
                   [] (TableProperty.mk None None None None))]
             plain_CellProperty] None None]
       [] (TableProperty.mk None None None None))
  = [ wasm.Table_add_row
        [wasm.TableRow_add_cell
           [wasm.TableCell_add_table
              [ wasm.Table_add_row
                  [wasm.TableRow_add_cell
                     [wasm.TableCell_add_paragraph (buildParagraph hello_paragraph)]];
                wasm.Table_set_grid []; wasm.Table_indent 0 ]]];
      wasm.Table_set_grid []; wasm.Table_indent 0 ].
Proof. reflexivity. Qed.

(** The builder calls of "should write lvlOverride with level" compose the
    document written out as [override_Docx]. *)
Example override_calls_composed : composed override_calls = override_Docx.
Proof. reflexivity. Qed.

(** ** Enum conversion (C4) *)

Lemma eqb_not_in (t s : string) (l : list string) :
  ~ In t (s :: l) -> String.eqb t s = false /\ ~ In t l.
Proof.
  intros H; split.
  - apply String.eqb_neq. intros ->. apply H. now left.
  - intros Hin. apply H. now right.
Qed.

Example convertBorderType_dotted :
  convertBorderType "dotted" = wasm.BorderType.Dotted.
Proof. reflexivity. Qed.

Example convertWidthType_case_sensitive :
  convertWidthType "pct" = wasm.WidthType.DXA
  /\ convertWidthType "Pct" = wasm.WidthType.Pct.
Proof. split; reflexivity. Qed.

(** C4.  A string that is none of the recognized border-type literals is
    converted to [Single], and a string that is none of the recognized
    width-type literals is converted to [DXA].  Both conversions are total
    functions: no string makes them fail. *)
Theorem convert_unrecognized_defaults (t : string) :
  (~ In t recognized_border_types ->
   convertBorderType t = wasm.BorderType.Single)
  /\ (~ In t recognized_width_types ->
      convertWidthType t = wasm.WidthType.DXA).
Proof.
  split; intros H.
  - unfold convertBorderType, recognized_border_types in *.
    repeat (apply eqb_not_in in H; destruct H as [-> H]).
    reflexivity.
  - unfold convertWidthType, recognized_width_types in *.
    repeat (apply eqb_not_in in H; destruct H as [-> H]).
    reflexivity.
Qed.

Lemma convert_unrecognized_defaults_witness :
  convertBorderType "wavy" = wasm.BorderType.Single
  /\ convertWidthType "pct" = wasm.WidthType.DXA.
Proof.
  split.
  - apply (proj1 (convert_unrecognized_defaults "wavy")).
    simpl. intuition discriminate.
  - apply (proj2 (convert_unrecognized_defaults "pct")).
    simpl. intuition discriminate.
Defined.

(** ** Breaks in a run (C10) *)

Lemma buildRun_child_unrecognized_break (run : wasm.Run) (type : string) :
  ~ In type recognized_break_types ->
  buildRun_child run (Break type) = run.
Proof.
  intros H. unfold buildRun_child, recognized_break_types in *.
  repeat (apply eqb_not_in in H; destruct H as [-> H]).
  reflexivity.
Qed.

Lemma received_breaks_call (run : wasm.Run) (c : wasm.RunCall) :
  received_breaks (run ▸ c)
  = (received_breaks run
     ++ match c with wasm.Run_add_break t => [t] | _ => [] end)%list.
Proof.
  unfold received_breaks, call. rewrite flat_map_app. simpl.
  now rewrite app_nil_r.
Qed.

Example odd_break_run_breaks : received_breaks (buildRun odd_break_run) = [].
Proof. reflexivity. Qed.

Example odd_break_run_built :
  buildRun odd_break_run
  = [wasm.Run_add_text "a"; wasm.Run_add_text "b"; wasm.Run_fonts []].
Proof. reflexivity. Qed.

(** C10.  A [Break] child whose type is none of "column", "page" and
    "textWrapping" leaves the run under construction as it was: [buildRun]
    produces the very run it produces without that child, so no break element
    stands for it, neither a default one nor an error. *)
Theorem buildRun_drops_unrecognized_break
    (r : Run.t) (pre post : list RunChild) (type : string) :
  Run.children r = (pre ++ Break type :: post)%list ->
  ~ In type recognized_break_types ->
  buildRun_child (fold_left buildRun_child pre wasm.createRun) (Break type)
  = fold_left buildRun_child pre wasm.createRun
  /\ buildRun r = buildRun (without_run_child pre post r).
Proof.
  intros Hch Hty. split.
  - now apply buildRun_child_unrecognized_break.
  - unfold buildRun, without_run_child. simpl Run.children. simpl Run.property.
    rewrite Hch, !fold_left_app.
    change (fold_left buildRun_child (Break type :: post)
              (fold_left buildRun_child pre wasm.createRun))
      with (fold_left buildRun_child post
              (buildRun_child (fold_left buildRun_child pre wasm.createRun)
                 (Break type))).
    now rewrite buildRun_child_unrecognized_break.
Qed.

Lemma buildRun_drops_unrecognized_break_witness :
  buildRun odd_break_run
  = buildRun (without_run_child [Text "a"] [Text "b"] odd_break_run).
Proof.
  apply (buildRun_drops_unrecognized_break odd_break_run
           [Text "a"] [Text "b"] (type := "line")).
  - reflexivity.
  - simpl. intuition discriminate.
Defined.

(** ** Cell borders (C6) *)

Lemma received_borders_call pos (cell : wasm.TableCell) (c : wasm.TableCellCall) :
  received_borders pos (cell ▸ c)
  = (received_borders pos cell
     ++ match c with
        | wasm.TableCell_set_border b =>
            if wasm.TableCellBorderPosition.eqb (wasm.TableCellBorder_position b) pos
            then [b] else []
        | _ => []
        end)%list.
Proof.
  unfold received_borders, call. rewrite flat_map_app. simpl.
  now rewrite app_nil_r.
Qed.

Lemma cellBorder_position pos b :
  wasm.TableCellBorder_position (cellBorder pos b) = pos.
Proof. reflexivity. Qed.

Lemma received_borders_setCellBorder pos q s cell :
  received_borders pos (setCellBorder q s cell)
  = (received_borders pos cell
     ++ if wasm.TableCellBorderPosition.eqb q pos
        then match s with Some b => [cellBorder q b] | None => [] end
        else [])%list.
Proof.
  unfold setCellBorder. destruct s as [b|].
  - rewrite received_borders_call, cellBorder_position. reflexivity.
  - destruct (wasm.TableCellBorderPosition.eqb q pos); now rewrite app_nil_r.
Qed.

(** Each position receives the border of its own slot, and nothing else. *)
Lemma received_borders_buildCellBorders pos bs cell :
  received_borders pos (buildCellBorders bs cell)
  = (received_borders pos cell
     ++ match slot pos bs with Some b => [cellBorder pos b] | None => [] end)%list.
Proof.
  unfold buildCellBorders. cbv zeta.
  rewrite !received_borders_setCellBorder, <- !app_assoc.
  destruct pos; simpl; rewrite ?app_nil_r; reflexivity.
Qed.

Lemma received_borders_buildCell_property pos property cell :
  received_borders pos (buildCell_property property cell)
  = (received_borders pos cell
     ++ match CellProperty.borders property with
        | Some bs =>
            match slot pos bs with Some b => [cellBorder pos b] | None => [] end
        | None => []
        end)%list.
Proof.
  cbv beta delta [buildCell_property].
  name_let c1.
  assert (H1 : received_borders pos c1 = received_borders pos cell).
  { subst c1. split_tests; rewrite ?received_borders_call, ?app_nil_r; reflexivity. }
  clearbody c1. name_let c2.
  assert (H2 : received_borders pos c2 = received_borders pos cell).
  { subst c2. split_tests; rewrite ?received_borders_call, ?app_nil_r; assumption. }
  clearbody c2. clear H1 c1. name_let c3.
  assert (H3 : received_borders pos c3 = received_borders pos cell).
  { subst c3. split_tests; rewrite ?received_borders_call, ?app_nil_r; assumption. }
  clearbody c3. clear H2 c2. name_let c4.
  assert (H4 : received_borders pos c4 = received_borders pos cell).
  { subst c4. split_tests; rewrite ?received_borders_call, ?app_nil_r; assumption. }
  clearbody c4. clear H3 c3. name_let c5.
  assert (H5 : received_borders pos c5 = received_borders pos cell).
  { subst c5. split_tests; rewrite ?received_borders_call, ?app_nil_r; assumption. }
  clearbody c5. clear H4 c4. name_let c6.
  assert (H6 : received_borders pos c6
               = (received_borders pos cell
                  ++ match CellProperty.borders property with
                     | Some bs =>
                         match slot pos bs with
                         | Some b => [cellBorder pos b] | None => [] end
                     | None => []
                     end)%list).
  { subst c6. destruct (CellProperty.borders property) as [bs|].
    - now rewrite received_borders_buildCellBorders, H5.
    - now rewrite app_nil_r. }
  clearbody c6. clear H5 c5. name_let c7.
  subst c7. destruct (CellProperty.shading property);
    rewrite ?received_borders_call, ?app_nil_r; assumption.
Qed.

Lemma buildCell_eq children property :
  buildCell (mkTableCell children property)
  = buildCell_property property
      (fold_left
         (fun cell c =>
            match c with
            | TableCellChild_Paragraph p =>
                cell ▸ wasm.TableCell_add_paragraph (buildParagraph p)
            | TableCellChild_Table t =>
                cell ▸ wasm.TableCell_add_table (buildTable t)
            end)
         children wasm.createTableCell).
Proof. reflexivity. Qed.

(** The children of a cell bring no border with them. *)
Lemma received_borders_cell_children pos children :
  received_borders pos
    (fold_left
       (fun cell c =>
          match c with
          | TableCellChild_Paragraph p =>
              cell ▸ wasm.TableCell_add_paragraph (buildParagraph p)
          | TableCellChild_Table t =>
              cell ▸ wasm.TableCell_add_table (buildTable t)
          end)
       children wasm.createTableCell)
  = [].
Proof.
  rewrite (fold_left_calls _
             (fun c => match c with
                       | TableCellChild_Paragraph p =>
                           wasm.TableCell_add_paragraph (buildParagraph p)
                       | TableCellChild_Table t =>
                           wasm.TableCell_add_table (buildTable t)
                       end)).
  - simpl. apply flat_map_map_nil. intros []; reflexivity.
  - intros o []; reflexivity.
Qed.

(** The borders a built cell received, slot by slot. *)
Lemma received_borders_buildCell pos (c : TableCell.t) :
  received_borders pos (buildCell c)
  = match CellProperty.borders (TableCell.property c) with
    | Some bs =>
        match slot pos bs with Some b => [cellBorder pos b] | None => [] end
    | None => []
    end.
Proof.
  destruct c as [children property].
  rewrite buildCell_eq, received_borders_buildCell_property,
    received_borders_cell_children.
  reflexivity.
Qed.

Example diagonal_cell_borders :
  received_borders wasm.TableCellBorderPosition.Tl2br (buildCell diagonal_cell)
  = [cellBorder wasm.TableCellBorderPosition.Tl2br (plain_border "tl2br")]
  /\ received_borders wasm.TableCellBorderPosition.Tr2bl (buildCell diagonal_cell)
     = [cellBorder wasm.TableCellBorderPosition.Tr2bl (plain_border "tr2bl")]
  /\ received_borders wasm.TableCellBorderPosition.Top (buildCell diagonal_cell)
     = [].
Proof. repeat split. Qed.

(** Setting the two diagonal borders in either order fills the same two
    slots and leaves the other six as they were. *)
Lemma setBorder_diagonals_commute (c : TableCell.t) (b1 b2 : TableCellBorder.t) :
  TableCellBorder.position b1 = "tl2br" ->
  TableCellBorder.position b2 = "tr2bl" ->
  setBorder b1 (setBorder b2 c) = setBorder b2 (setBorder b1 c)
  /\ exists bs,
       CellProperty.borders (TableCell.property (setBorder b1 (setBorder b2 c)))
       = Some bs
       /\ TableCellBorders.tl2br bs = Some b1
       /\ TableCellBorders.tr2bl bs = Some b2
       /\ without_diagonals (setBorder b1 (setBorder b2 c))
          = without_diagonals (setBorder b1 c)
       /\ without_diagonals (setBorder b1 c) = without_diagonals (setBorder b2 c).
Proof.
  intros H1 H2. destruct c as [children property].
  unfold setBorder, without_diagonals. simpl. rewrite H1, H2. simpl.
  split; [reflexivity|].
  eexists; repeat split.
Qed.

(** C6.  A cell whose borders hold both [tl2br] and [tr2bl] is built with one
    border at each diagonal position, carrying that slot's size, colour and
    type; every position receives the border of its own slot and no other, so
    the six remaining positions are what they are without the diagonals. *)
Theorem diagonal_borders_independent
    (c : TableCell.t) (bs : TableCellBorders.t) (b1 b2 : TableCellBorder.t) :
  CellProperty.borders (TableCell.property c) = Some bs ->
  TableCellBorders.tl2br bs = Some b1 ->
  TableCellBorders.tr2bl bs = Some b2 ->
  received_borders wasm.TableCellBorderPosition.Tl2br (buildCell c)
  = [cellBorder wasm.TableCellBorderPosition.Tl2br b1]
  /\ received_borders wasm.TableCellBorderPosition.Tr2bl (buildCell c)
     = [cellBorder wasm.TableCellBorderPosition.Tr2bl b2]
  /\ (forall pos,
        received_borders pos (buildCell c)
        = match slot pos bs with Some b => [cellBorder pos b] | None => [] end)
  /\ (forall pos,
        pos <> wasm.TableCellBorderPosition.Tl2br ->
        pos <> wasm.TableCellBorderPosition.Tr2bl ->
        received_borders pos (buildCell c)
        = received_borders pos (buildCell (without_diagonals c))).
Proof.
  intros Hbs H1 H2. repeat split.
  - rewrite received_borders_buildCell, Hbs. simpl. now rewrite H1.
  - rewrite received_borders_buildCell, Hbs. simpl. now rewrite H2.
  - intros pos. now rewrite received_borders_buildCell, Hbs.
  - intros pos Hn1 Hn2. rewrite !received_borders_buildCell.
    destruct c as [children property]. simpl in *. rewrite Hbs.
    destruct pos; try reflexivity; congruence.
Qed.

Lemma diagonal_borders_independent_witness :
  received_borders wasm.TableCellBorderPosition.Tl2br (buildCell diagonal_cell)
  = [cellBorder wasm.TableCellBorderPosition.Tl2br (plain_border "tl2br")]
  /\ received_borders wasm.TableCellBorderPosition.Tr2bl (buildCell diagonal_cell)
     = [cellBorder wasm.TableCellBorderPosition.Tr2bl (plain_border "tr2bl")].
Proof.
  destruct (diagonal_borders_independent diagonal_cell
              (bs := TableCellBorders.mk None None None None None None
                       (Some (plain_border "tl2br"))
                       (Some (plain_border "tr2bl")))
              (b1 := plain_border "tl2br") (b2 := plain_border "tr2bl"))
    as (H1 & H2 & _); [reflexivity | reflexivity | reflexivity |].
  split; [exact H1 | exact H2].
Defined.

(** ** The shape of [createDocx]

    Every block of [createDocx] only adds calls to the document it is given,
    so the finished document is the concatenation of what each block adds. *)

Lemma createDocx_children_calls this d :
  Docx.createDocx_children this d
  = (d ++ map child_call (Docx.children this))%list.
Proof.
  unfold Docx.createDocx_children.
  apply fold_left_calls. intros o []; reflexivity.
Qed.

Lemma createDocx_abstractNumberings_calls this d :
  Docx.createDocx_abstractNumberings this d
  = (d ++ map (fun n => wasm.Docx_add_abstract_numbering
                          (Docx.createDocx_abstractNumbering n))
            (Docx.abstractNumberings this))%list.
Proof.
  unfold Docx.createDocx_abstractNumberings.
  apply fold_left_calls. reflexivity.
Qed.

Lemma createDocx_numberings_calls this d :
  Docx.createDocx_numberings this d
  = (d ++ map (fun n => wasm.Docx_add_numbering (Docx.createDocx_numbering n))
            (Docx.numberings this))%list.
Proof.
  unfold Docx.createDocx_numberings.
  apply fold_left_calls. reflexivity.
Qed.

Lemma createDocx_settings_calls this d :
  Docx.createDocx_settings this d
  = (d ++ match truthyS (Settings._docId (Docx.settings this)) with
          | Some id => [wasm.Docx_doc_id id] | None => [] end
       ++ [wasm.Docx_default_tab_stop
             (Settings._defaultTabStop (Docx.settings this))]
       ++ map (fun v => wasm.Docx_add_doc_var (DocVar.name v) (DocVar.val v))
            (Settings._docVars (Docx.settings this)))%list.
Proof.
  unfold Docx.createDocx_settings. cbv zeta.
  rewrite (fold_left_calls _
             (fun v => wasm.Docx_add_doc_var (DocVar.name v) (DocVar.val v)))
    by reflexivity.
  destruct (truthyS _); rewrite ?call_app, <- ?app_assoc; reflexivity.
Qed.

Lemma createDocx_pageMargin_calls this d :
  Docx.createDocx_pageMargin this d
  = (d ++ Docx.createDocx_pageMargin this [])%list.
Proof.
  unfold Docx.createDocx_pageMargin.
  destruct (SectionProperty._pageMargin _); [reflexivity | now rewrite app_nil_r].
Qed.

Lemma createDocx_pageSize_calls this d :
  Docx.createDocx_pageSize this d
  = (d ++ match SectionProperty._pageSize (Docx.sectionProperty this) with
          | Some s =>
              wasm.Docx_page_size (PageSize.w s) (PageSize.h s)
              :: match PageSize.orient s with
                 | Some o =>
                     if String.eqb o "landscape" then
                       [wasm.Docx_page_orient wasm.PageOrientationType.Landscape]
                     else if String.eqb o "portrait" then
                       [wasm.Docx_page_orient wasm.PageOrientationType.Portrait]
                     else []
                 | None => []
                 end
          | None => []
          end)%list.
Proof.
  unfold Docx.createDocx_pageSize. cbv zeta.
  split_tests; rewrite ?call_app, <- ?app_assoc, ?app_nil_r; reflexivity.
Qed.

Lemma createDocx_docGrid_calls this d :
  Docx.createDocx_docGrid this d = (d ++ Docx.createDocx_docGrid this [])%list.
Proof.
  unfold Docx.createDocx_docGrid.
  destruct (SectionProperty._docGrid _); [reflexivity | now rewrite app_nil_r].
Qed.

Lemma createDocx_styles_calls this d :
  Docx.createDocx_styles this d = (d ++ Docx.createDocx_styles this [])%list.
Proof.
  unfold Docx.createDocx_styles. cbv zeta.
  split_tests; rewrite ?call_app, <- ?app_assoc, ?app_nil_r; reflexivity.
Qed.

Lemma createDocx_docProps_calls this d :
  Docx.createDocx_docProps this d
  = (d ++ match truthyS (DocProps._createdAt (Docx.docProps this)) with
          | Some c => [wasm.Docx_created_at c] | None => [] end
       ++ match truthyS (DocProps._updatedAt (Docx.docProps this)) with
          | Some u => [wasm.Docx_updated_at u] | None => [] end
       ++ map (fun kv => wasm.Docx_custom_property (fst kv) (snd kv))
            (DocProps._customProperties (Docx.docProps this))
       ++ match truthyS (DocProps._updatedAt (Docx.docProps this)) with
          | Some u => [wasm.Docx_updated_at u] | None => [] end)%list.
Proof.
  unfold Docx.createDocx_docProps. cbv zeta.
  rewrite (fold_left_calls _
             (fun kv => wasm.Docx_custom_property (fst kv) (snd kv)))
    by reflexivity.
  destruct (truthyS (DocProps._createdAt _)), (truthyS (DocProps._updatedAt _));
    rewrite ?call_app, <- ?app_assoc, ?app_nil_r; reflexivity.
Qed.

Lemma createDocx_taskpanes_calls this d :
  Docx.createDocx_taskpanes this d
  = (d ++ if Docx._taskpanes this then
            wasm.Docx_taskpanes
            :: map (fun e => wasm.Docx_web_extension
                               (Docx.createDocx_webextension e))
                 (Docx.webextensions this)
          else [])%list.
Proof.
  unfold Docx.createDocx_taskpanes. cbv zeta.
  destruct (Docx._taskpanes this); [|now rewrite app_nil_r].
  rewrite (fold_left_calls _
             (fun e => wasm.Docx_web_extension (Docx.createDocx_webextension e)))
    by reflexivity.
  now rewrite call_app, <- app_assoc.
Qed.

Lemma createDocx_customItems_calls this d :
  Docx.createDocx_customItems this d
  = (d ++ map (fun item => wasm.Docx_add_custom_item (CustomItem.id item)
                             (CustomItem.xml item))
            (Docx.customItems this))%list.
Proof.
  unfold Docx.createDocx_customItems.
  apply fold_left_calls. reflexivity.
Qed.

Lemma createDocx_calls this :
  Docx.createDocx this
  = (map child_call (Docx.children this)
     ++ map (fun n => wasm.Docx_add_abstract_numbering
                        (Docx.createDocx_abstractNumbering n))
          (Docx.abstractNumberings this)
     ++ map (fun n => wasm.Docx_add_numbering (Docx.createDocx_numbering n))
          (Docx.numberings this)
     ++ Docx.createDocx_settings this []
     ++ Docx.createDocx_pageMargin this []
     ++ Docx.createDocx_pageSize this []
     ++ Docx.createDocx_docGrid this []
     ++ Docx.createDocx_styles this []
     ++ Docx.createDocx_docProps this []
     ++ Docx.createDocx_taskpanes this []
     ++ Docx.createDocx_customItems this [])%list.
Proof.
  unfold Docx.createDocx. cbv zeta.
  rewrite createDocx_customItems_calls, createDocx_taskpanes_calls,
    createDocx_docProps_calls, createDocx_styles_calls, createDocx_docGrid_calls,
    createDocx_pageSize_calls, createDocx_pageMargin_calls,
    createDocx_settings_calls, createDocx_numberings_calls,
    createDocx_abstractNumberings_calls, createDocx_children_calls.
  rewrite (createDocx_settings_calls this []),
    (createDocx_pageSize_calls this []), (createDocx_docProps_calls this []),
    (createDocx_taskpanes_calls this []), (createDocx_customItems_calls this []).
  unfold wasm.createDocx. simpl app. rewrite <- !app_assoc. reflexivity.
Qed.

(** ** What [createDocx] hands to wasm *)

(** Rewrites the document with its shape and distributes a projection over
    the blocks. *)
Ltac over_blocks :=
  rewrite createDocx_calls;
  rewrite (createDocx_settings_calls _ []), (createDocx_pageSize_calls _ []),
    (createDocx_docProps_calls _ []), (createDocx_taskpanes_calls _ []),
    (createDocx_customItems_calls _ []);
  rewrite !flat_map_app; simpl app.

(** Discards every block to which the projection is blind. *)
Ltac silent_blocks :=
  repeat match goal with
         | |- context [flat_map ?f (map ?g ?l)] =>
             rewrite (@flat_map_map_nil _ _ _ f g l) by (intros []; reflexivity)
         | |- context [flat_map ?f ?piece] =>
             lazymatch piece with
             | [] => fail
             | _ =>
                 let H := fresh in
                 assert (H : flat_map f piece = [])
                   by (unfold Docx.createDocx_pageMargin, Docx.createDocx_docGrid,
                         Docx.createDocx_styles;
                       cbv zeta; split_tests; simpl;
                       rewrite ?flat_map_map_nil by (intros []; reflexivity);
                       reflexivity);
                 rewrite H; clear H
             end
         end;
  cbn [flat_map app]; rewrite ?app_nil_r.

Lemma received_page_sizes_createDocx this :
  received_page_sizes (Docx.createDocx this)
  = match SectionProperty._pageSize (Docx.sectionProperty this) with
    | Some s => [(PageSize.w s, PageSize.h s)]
    | None => []
    end.
Proof.
  unfold received_page_sizes. over_blocks. silent_blocks.
  split_tests; reflexivity.
Qed.

Lemma received_page_orients_createDocx this :
  received_page_orients (Docx.createDocx this)
  = match SectionProperty._pageSize (Docx.sectionProperty this) with
    | Some s =>
        match PageSize.orient s with
        | Some o =>
            if String.eqb o "landscape" then [wasm.PageOrientationType.Landscape]
            else if String.eqb o "portrait" then [wasm.PageOrientationType.Portrait]
            else []
        | None => []
        end
    | None => []
    end.
Proof.
  unfold received_page_orients. over_blocks. silent_blocks.
  split_tests; reflexivity.
Qed.

Lemma received_numberings_createDocx this :
  received_numberings (Docx.createDocx this)
  = map Docx.createDocx_numbering (Docx.numberings this).
Proof.
  unfold received_numberings. over_blocks. silent_blocks.
  apply flat_map_map_singleton. reflexivity.
Qed.

Lemma received_abstract_numberings_createDocx this :
  received_abstract_numberings (Docx.createDocx this)
  = map Docx.createDocx_abstractNumbering (Docx.abstractNumberings this).
Proof.
  unfold received_abstract_numberings. over_blocks. silent_blocks.
  apply flat_map_map_singleton. reflexivity.
Qed.

Lemma received_web_extensions_createDocx this :
  received_web_extensions (Docx.createDocx this)
  = if Docx._taskpanes this
    then map Docx.createDocx_webextension (Docx.webextensions this)
    else [].
Proof.
  unfold received_web_extensions. over_blocks. silent_blocks.
  destruct (Docx._taskpanes this); [|reflexivity].
  simpl. apply flat_map_map_singleton. reflexivity.
Qed.


Lemma received_created_at_createDocx this :
  received_created_at (Docx.createDocx this)
  = match truthyS (DocProps._createdAt (Docx.docProps this)) with
    | Some c => [c] | None => [] end.
Proof.
  unfold received_created_at. over_blocks. silent_blocks.
  destruct (truthyS _); reflexivity.
Qed.

Lemma received_updated_at_createDocx this :
  received_updated_at (Docx.createDocx this)
  = match truthyS (DocProps._updatedAt (Docx.docProps this)) with
    | Some u => [u; u] | None => [] end.
Proof.
  unfold received_updated_at. over_blocks. silent_blocks.
  destruct (truthyS _); reflexivity.
Qed.

(** ** Page size and orientation (C7) *)

Example landscape_Docx_section :
  received_page_sizes (Docx.createDocx landscape_Docx) = [(16838, 11906)]
  /\ received_page_orients (Docx.createDocx landscape_Docx)
     = [wasm.PageOrientationType.Landscape].
Proof. split; reflexivity. Qed.

(** Whatever the orientation, the width and height that reach wasm are the
    caller's, in the caller's order, once. *)
Lemma page_size_not_swapped this w h o :
  SectionProperty._pageSize (Docx.sectionProperty this)
  = Some (PageSize.mk w h o) ->
  received_page_sizes (Docx.createDocx this) = [(w, h)].
Proof. intros H. now rewrite received_page_sizes_createDocx, H. Qed.

(** C7.  With page size 16838 by 11906 and orientation "landscape", the
    section properties handed to the wasm document are exactly one page size,
    width 16838 and height 11906 as given, and exactly one orientation, the
    landscape flag: width and height are not exchanged. *)
Theorem landscape_page_size_literal (this : Docx.t) :
  SectionProperty._pageSize (Docx.sectionProperty this)
  = Some (PageSize.mk 16838 11906 (Some "landscape")) ->
  received_page_sizes (Docx.createDocx this) = [(16838, 11906)]
  /\ received_page_orients (Docx.createDocx this)
     = [wasm.PageOrientationType.Landscape].
Proof.
  intros H. split.
  - now apply page_size_not_swapped with (o := Some "landscape").
  - now rewrite received_page_orients_createDocx, H.
Qed.

Lemma landscape_page_size_literal_witness :
  received_page_sizes (Docx.createDocx landscape_Docx) = [(16838, 11906)]
  /\ received_page_orients (Docx.createDocx landscape_Docx)
     = [wasm.PageOrientationType.Landscape].
Proof. apply (landscape_page_size_literal landscape_Docx). reflexivity. Defined.

(** ** The terminal operations, whatever the wasm side does *)

Lemma build_outcome {Buf : Type} (wb : wasm.Docx -> bool -> Outcome Buf) this heap :
  Docx.outcome (Docx.build wb this heap)
  = wb (Docx.createDocx this) (Docx.hasNumberings this).
Proof.
  unfold Docx.build. simpl.
  destruct (wb (Docx.createDocx this) (Docx.hasNumberings this)); reflexivity.
Qed.


(** ** Numbering references (C3) *)

Lemma createDocx_numbering_abstractNumId n :
  wasm.Numbering_abstractNumId (Docx.createDocx_numbering n)
  = Numbering.abstractNumId n.
Proof.
  unfold Docx.createDocx_numbering.
  assert (G : forall os a,
             wasm.Numbering_abstractNumId
               (fold_left
                  (fun num o =>
                     let levelOverride := Docx.createDocx_levelOverride o in
                     wasm.Numbering_call num
                       (wasm.Numbering_add_override levelOverride)) os a)
             = wasm.Numbering_abstractNumId a).
  { induction os as [|o os IH]; intros a; simpl; [reflexivity|].
    now rewrite IH. }
  now rewrite G.
Qed.

Lemma createDocx_abstractNumbering_id n :
  wasm.AbstractNumbering_id (Docx.createDocx_abstractNumbering n)
  = AbstractNumbering.id n.
Proof.
  unfold Docx.createDocx_abstractNumbering.
  assert (G : forall ls a,
             wasm.AbstractNumbering_id
               (fold_left
                  (fun num l =>
                     let level := buildLevel l in
                     wasm.AbstractNumbering_call num
                       (wasm.AbstractNumbering_add_level level)) ls a)
             = wasm.AbstractNumbering_id a).
  { induction ls as [|l ls IH]; intros a; simpl; [reflexivity|].
    now rewrite IH. }
  now rewrite G.
Qed.



Example dangling_Docx_build :
  Docx.outcome (Docx.build (WasmModel.Docx_build "now") dangling_Docx
                  WasmHeap.empty)
  = Throw ValidationError.
Proof. reflexivity. Qed.



(** ** The entries of a package *)

Lemma webextension_part_head n :
  exists rest, WasmModel.webextension_part n = String "w"%char (String "e"%char rest).
Proof. unfold WasmModel.webextension_part. simpl. eauto. Qed.

Lemma customItem_part_head n :
  exists rest, WasmModel.customItem_part n = String "c"%char rest.
Proof. unfold WasmModel.customItem_part. simpl. eauto. Qed.

Lemma customItemProps_part_head n :
  exists rest, WasmModel.customItemProps_part n = String "c"%char rest.
Proof. unfold WasmModel.customItemProps_part. simpl. eauto. Qed.

Lemma customItem_entries_names d x :
  In x (map WasmModel.name (WasmModel.customItem_entries d)) ->
  exists rest, x = String "c"%char rest.
Proof.
  unfold WasmModel.customItem_entries.
  generalize (WasmModel.indexed_from 1 (received_custom_items d)).
  intros l H. apply in_map_iff in H. destruct H as (e & <- & He).
  apply in_flat_map in He. destruct He as (ni & _ & [<-|[<-|[]]]); simpl.
  - apply customItem_part_head.
  - apply customItemProps_part_head.
Qed.

Lemma webextension_entries_names d x :
  In x (map WasmModel.name (WasmModel.webextension_entries d)) ->
  exists rest, x = String "w"%char (String "e"%char rest).
Proof.
  unfold WasmModel.webextension_entries.
  destruct (received_taskpanes d); [|intros []].
  rewrite map_map. intros H. apply in_map_iff in H.
  destruct H as (ne & <- & _). simpl. apply webextension_part_head.
Qed.

(** The numbering part is in the package exactly when the flag given to the
    wasm [build] is set. *)
Lemma numbering_part_iff_flag now d flag :
  In "word/numbering.xml" (WasmModel.entry_names (WasmModel.package now d flag))
  <-> flag = true.
Proof.
  unfold WasmModel.entry_names, WasmModel.package. cbv zeta. cbn [WasmModel.entries].
  rewrite !map_app, !in_app_iff. split.
  - intros [H|[H|[H|[H|[H|[H|H]]]]]].
    + simpl in H. intuition discriminate.
    + destruct flag; [reflexivity|destruct H].
    + destruct (received_comment d); simpl in H; intuition discriminate.
    + simpl in H. intuition discriminate.
    + destruct (received_custom_properties d); simpl in H; intuition discriminate.
    + apply webextension_entries_names in H. destruct H as (rest & H).
      discriminate H.
    + apply customItem_entries_names in H. destruct H as (rest & H).
      discriminate H.
  - intros ->. right. left. now left.
Qed.




Lemma build_returns_package now this heap pkg :
  Docx.outcome (Docx.build (WasmModel.Docx_build now) this heap) = Return pkg ->
  pkg = WasmModel.package now (Docx.createDocx this) (Docx.hasNumberings this).
Proof.
  rewrite build_outcome. unfold WasmModel.Docx_build.
  destruct (WasmModel.numbering_references_resolve _); congruence.
Qed.

(** ** The numbering part (C5) *)

Section Composition.
Context {collab : Collaborators}.

Lemma perform_hasNumberings this c :
  Docx.hasNumberings (perform this c)
  = Docx.hasNumberings this || adds_numbering c.
Proof.
  destruct c; simpl; rewrite ?orb_false_r; try reflexivity.
  - unfold Docx.addParagraph. destruct (Paragraph.hasNumberings p); simpl;
      [now rewrite orb_true_r | now rewrite orb_false_r].
  - unfold Docx.addTable. destruct (Table.hasNumberings t); simpl;
      [now rewrite orb_true_r | now rewrite orb_false_r].
Qed.

Lemma perform_children_numbering this c :
  existsb child_uses_numbering (Docx.children (perform this c))
  = existsb child_uses_numbering (Docx.children this) || adds_numbering c.
Proof.
  destruct c; simpl; rewrite ?orb_false_r; try reflexivity.
  - unfold Docx.addParagraph, Docx.push.
    destruct (Paragraph.hasNumberings p) eqn:E; simpl;
      rewrite existsb_app; simpl; now rewrite E.
  - unfold Docx.addBookmarkStart, Docx.push. simpl.
    rewrite existsb_app. simpl. now rewrite orb_false_r.
  - unfold Docx.addBookmarkEnd, Docx.push. simpl.
    rewrite existsb_app. simpl. now rewrite orb_false_r.
  - unfold Docx.addTable, Docx.push.
    destruct (Table.hasNumberings t) eqn:E; simpl;
      rewrite existsb_app; simpl; now rewrite E.
Qed.

(** The flag and the children stay in step along any sequence of calls. *)
Lemma fold_perform_numbering calls : forall this,
  Docx.hasNumberings (fold_left perform calls this)
  = Docx.hasNumberings this || existsb adds_numbering calls
  /\ existsb child_uses_numbering (Docx.children (fold_left perform calls this))
     = existsb child_uses_numbering (Docx.children this)
       || existsb adds_numbering calls.
Proof.
  induction calls as [|c calls IH]; intros this; simpl.
  - now rewrite !orb_false_r.
  - destruct (IH (perform this c)) as [IH1 IH2].
    rewrite IH1, IH2, perform_hasNumberings, perform_children_numbering.
    now rewrite !orb_assoc.
Qed.

Lemma composed_hasNumberings calls :
  Docx.hasNumberings (composed calls) = existsb adds_numbering calls
  /\ existsb child_uses_numbering (Docx.children (composed calls))
     = existsb adds_numbering calls.
Proof.
  unfold composed. destruct (fold_perform_numbering calls Docx.new) as [H1 H2].
  now rewrite H1, H2.
Qed.

End Composition.

Example override_calls_flag :
  Docx.hasNumberings (composed override_calls) = true
  /\ Docx.hasNumberings (composed [Call_addParagraph hello_paragraph]) = false.
Proof. split; reflexivity. Qed.

(** C5.  For a document composed by any sequence of builder calls, the built
    package holds [word/numbering.xml] exactly when some [addParagraph] or
    [addTable] call added a node that uses numbering.  That is the value of
    [hasNumberings] when [build] runs, which [build] passes to the wasm
    [build], and it agrees with the children the document holds; without such
    a node the part is absent. *)
Theorem numbering_part_iff_numbering_used {collab : Collaborators}
    (calls : list BuilderCall) (now : string) (heap : WasmHeap.t)
    (pkg : WasmModel.Package) :
  Docx.outcome (Docx.build (WasmModel.Docx_build now) (composed calls) heap)
  = Return pkg ->
  (In "word/numbering.xml" (WasmModel.entry_names pkg)
   <-> existsb adds_numbering calls = true)
  /\ Docx.hasNumberings (composed calls) = existsb adds_numbering calls
  /\ existsb child_uses_numbering (Docx.children (composed calls))
     = existsb adds_numbering calls
  /\ Docx.outcome (Docx.build (WasmModel.Docx_build now) (composed calls) heap)
     = WasmModel.Docx_build now (Docx.createDocx (composed calls))
         (existsb adds_numbering calls).
Proof.
  intros H. destruct (composed_hasNumberings calls) as [H1 H2].
  apply build_returns_package in H. subst pkg.
  rewrite numbering_part_iff_flag, build_outcome, H1. tauto.
Qed.

Lemma numbering_part_iff_numbering_used_witness :
  In "word/numbering.xml"
    (WasmModel.entry_names
       (WasmModel.package "now" (Docx.createDocx (composed override_calls)) true)).
Proof.
  destruct (numbering_part_iff_numbering_used override_calls "now"
              WasmHeap.empty
              (pkg := WasmModel.package "now"
                        (Docx.createDocx (composed override_calls)) true))
    as (H & _); [vm_compute; reflexivity|].
  apply H. reflexivity.
Defined.

(** ** Web extensions and task panes (C8) *)

Example webextension_Docx_parts :
  Docx.outcome
    (Docx.build (WasmModel.Docx_build "now") webextension_Docx WasmHeap.empty)
  = Return (WasmModel.package "now" (Docx.createDocx webextension_Docx) false)
  /\ In "webextensions/webextension1.xml"
       (WasmModel.entry_names
          (WasmModel.package "now" (Docx.createDocx webextension_Docx) false)).
Proof. split; [reflexivity | vm_compute; tauto]. Qed.

Example unregistered_Docx_not_passed :
  received_web_extensions (Docx.createDocx unregistered_Docx) = [].
Proof. reflexivity. Qed.

Example taskpanes_only_Docx_parts :
  WasmModel.webextension_entries (Docx.createDocx taskpanes_only_Docx) = [].
Proof. reflexivity. Qed.




(** ** Building twice (C2) *)





Example hello_Docx_clock :
  Docx.outcome (Docx.build (WasmModel.Docx_build "t1") hello_Docx WasmHeap.empty)
  <> Docx.outcome (Docx.build (WasmModel.Docx_build "t2") hello_Docx
                     WasmHeap.empty).
Proof. vm_compute. intros H. discriminate H. Qed.



(** ** The life of the wasm document and of the instance (C9) *)






Example hello_Docx_built_twice :
  let first := Docx.build counting_build hello_Docx WasmHeap.empty in
  let second := Docx.build counting_build (Docx.this_after first)
                  (Docx.heap_after first) in
  Docx.outcome first = Return 2%nat
  /\ Docx.outcome second = Return 2%nat
  /\ Docx.this_after second = hello_Docx
  /\ WasmHeap.live (Docx.heap_after second) = [].
Proof. repeat split. Qed.




(** ** Round trip (C1) *)



Example unregistered_Docx_same_document :
  Docx.createDocx unregistered_Docx = Docx.createDocx hello_Docx
  /\ Docx.webextensions unregistered_Docx <> Docx.webextensions hello_Docx.
Proof. split; [reflexivity | discriminate]. Qed.




(** * Further properties of the translators *)

(** ** Walking a chain of reassignments *)

Lemma flat_map_call {C X : Type} (f : C -> list X) (o : list C) (c : C) :
  flat_map f (o ▸ c) = (flat_map f o ++ f c)%list.
Proof. unfold call. rewrite flat_map_app. simpl. now rewrite app_nil_r. Qed.

(** A step of the chain to which the projection [f] is blind. *)
Ltac blind_step f v prev :=
  let H := fresh "H" in
  assert (H : flat_map f v = flat_map f prev)
    by (subst v; split_tests; rewrite ?flat_map_call; cbn beta iota;
        rewrite ?app_nil_r; reflexivity);
  clearbody v.

(** Names every reassignment of the goal in turn.  A step the projection is
    blind to is replaced by the equation saying so; any other step is kept. *)
Ltac walk f prev :=
  lazymatch goal with
  | |- context [let x := _ in _] =>
      let v := fresh "v" in
      name_let v;
      first [ blind_step f v prev; walk f v
            | let T := type of v in
              let Tp := type of prev in
              unify T Tp; walk f v
            | subst v; walk f prev ]
  | |- _ => idtac
  end.

(** Folds the equations of the blind steps back into the goal. *)
Ltac unwalk :=
  repeat first
    [ match goal with
      | H : flat_map _ ?v = flat_map _ _ |- _ => rewrite H; clear H; try clear v
      end
    | match goal with
      | v := _ |- _ => subst v
      end ].

(** ** Runs *)

Lemma received_run_content_children children : forall run,
  received_run_content (fold_left buildRun_child children run)
  = (received_run_content run ++ flat_map run_child_calls children)%list.
Proof.
  unfold received_run_content.
  induction children as [|child children IH]; intros run; simpl.
  - now rewrite app_nil_r.
  - rewrite IH, app_assoc. f_equal.
    destruct child; simpl; rewrite ?flat_map_call; try reflexivity.
    split_tests; rewrite ?flat_map_call, ?app_nil_r; reflexivity.
Qed.

Lemma blind_run_children {X : Type} (f : wasm.RunCall -> list X) children :
  (forall child, flat_map f (run_child_calls child) = []) ->
  forall run,
    flat_map f (fold_left buildRun_child children run) = flat_map f run.
Proof.
  intros Hf. induction children as [|child children IH]; intros run; simpl;
    [reflexivity|].
  rewrite IH. specialize (Hf child).
  destruct child; simpl in *; rewrite ?flat_map_call; simpl in Hf;
    rewrite ?app_nil_r in Hf; try (rewrite Hf, app_nil_r; reflexivity).
  revert Hf. split_tests; rewrite ?flat_map_call; simpl; intros Hf;
    rewrite ?app_nil_r in Hf; rewrite ?Hf, ?app_nil_r; reflexivity.
Qed.

Example odd_break_run_content :
  received_run_content (buildRun odd_break_run)
  = [wasm.Run_add_text "a"; wasm.Run_add_text "b"].
Proof. reflexivity. Qed.

(** The content of a built run is the content of the JavaScript run, child
    by child and in the same order; the property calls add none. *)
Theorem buildRun_content_in_order (r : Run.t) :
  received_run_content (buildRun r) = flat_map run_child_calls (Run.children r).
Proof.
  unfold received_run_content. cbv beta delta [buildRun].
  walk (fun c : wasm.RunCall =>
          match c with
          | wasm.Run_add_text _ | wasm.Run_add_delete_text _
          | wasm.Run_add_tab | wasm.Run_add_break _ => [c]
          | _ => [] end) (@nil wasm.RunCall).
  unwalk.
  pose proof (received_run_content_children (Run.children r) v) as E.
  unfold received_run_content in E. now rewrite E, H.
Qed.

Example zero_size_run :
  received_run_sizes
    (buildRun (Run.mk []
       (RunProperty.mk (Some 0) None None None false false None false (Some 0)
          None None)))
  = [0]
  /\ received_paragraph_sizes
       (buildParagraph
          (mkParagraph false []
             (ParagraphProperty.mk None None None None
                (RunProperty.mk (Some 0) None None None false false None false
                   None None None)
                None false false false false)))
     = [].
Proof. split; reflexivity. Qed.

(** A run's size and spacing reach wasm whenever they are defined, zero
    included, once each; undefined, they are not sent. *)
Theorem buildRun_size_and_spacing (r : Run.t) :
  received_run_sizes (buildRun r)
  = match RunProperty.size (Run.property r) with Some s => [s] | None => [] end
  /\ received_run_spacings (buildRun r)
     = match RunProperty.spacing (Run.property r) with
       | Some s => [s] | None => [] end.
Proof.
  split.
  - unfold received_run_sizes. cbv beta delta [buildRun].
    walk (fun c : wasm.RunCall =>
            match c with wasm.Run_size s => [s] | _ => [] end)
         (@nil wasm.RunCall).
    unwalk.
    destruct (RunProperty.size (Run.property r));
      rewrite ?flat_map_call; unwalk;
      (rewrite blind_run_children;
       [ unwalk; reflexivity
       | intros []; simpl; split_tests; reflexivity ]).
  - unfold received_run_spacings. cbv beta delta [buildRun].
    walk (fun c : wasm.RunCall =>
            match c with wasm.Run_spacing s => [s] | _ => [] end)
         (@nil wasm.RunCall).
    unwalk.
    destruct (RunProperty.spacing (Run.property r));
      rewrite ?flat_map_call; unwalk;
      (rewrite blind_run_children;
       [ unwalk; reflexivity
       | intros []; simpl; split_tests; reflexivity ]).
Qed.

(** ** Composing a document *)

Section ComposedFields.
Context {collab : Collaborators}.

Lemma perform_collections this c :
  Docx.children (perform this c)
  = (Docx.children this ++ child_of_call c)%list
  /\ Docx.abstractNumberings (perform this c)
     = (Docx.abstractNumberings this ++ abstractNumbering_of_call c)%list
  /\ Docx.numberings (perform this c)
     = (Docx.numberings this ++ numbering_of_call c)%list
  /\ Docx.webextensions (perform this c)
     = (Docx.webextensions this ++ webextension_of_call c)%list
  /\ Docx.customItems (perform this c)
     = (Docx.customItems this ++ customItem_of_call c)%list
  /\ Docx._taskpanes (perform this c)
     = Docx._taskpanes this || is_taskpanes_call c.
Proof.
  destruct c; simpl; unfold Docx.push; rewrite ?app_nil_r, ?orb_false_r,
    ?orb_true_r; try (repeat split; reflexivity).
  - unfold Docx.addParagraph, Docx.push.
    destruct (Paragraph.hasNumberings p); simpl; rewrite ?app_nil_r, ?orb_false_r;
      repeat split; reflexivity.
  - unfold Docx.addTable, Docx.push.
    destruct (Table.hasNumberings t); simpl; rewrite ?app_nil_r, ?orb_false_r;
      repeat split; reflexivity.
Qed.

Lemma fold_perform_collections calls : forall this,
  let after := fold_left perform calls this in
  Docx.children after
  = (Docx.children this ++ flat_map child_of_call calls)%list
  /\ Docx.abstractNumberings after
     = (Docx.abstractNumberings this
        ++ flat_map abstractNumbering_of_call calls)%list
  /\ Docx.numberings after
     = (Docx.numberings this ++ flat_map numbering_of_call calls)%list
  /\ Docx.webextensions after
     = (Docx.webextensions this ++ flat_map webextension_of_call calls)%list
  /\ Docx.customItems after
     = (Docx.customItems this ++ flat_map customItem_of_call calls)%list
  /\ Docx._taskpanes after
     = Docx._taskpanes this || existsb is_taskpanes_call calls.
Proof.
  induction calls as [|c calls IH]; intros this; simpl.
  - rewrite !app_nil_r, orb_false_r. repeat split; reflexivity.
  - destruct (IH (perform this c)) as (H1 & H2 & H3 & H4 & H5 & H6).
    destruct (perform_collections this c) as (P1 & P2 & P3 & P4 & P5 & P6).
    rewrite H1, H2, H3, H4, H5, H6, P1, P2, P3, P4, P5, P6.
    rewrite <- !app_assoc, orb_assoc. repeat split; reflexivity.
Qed.

End ComposedFields.

Example override_calls_collections :
  Docx.numberings (composed override_calls)
  = flat_map numbering_of_call override_calls
  /\ List.length (Docx.children (composed override_calls)) = 1%nat.
Proof. split; reflexivity. Qed.

(** Whatever the delegated setters do, a document composed by builder calls
    holds its children, abstract numberings, numberings, web extensions and
    custom items in the order of the calls that added them, each once, and
    has task panes enabled exactly when [taskpanes()] was among the calls. *)
Theorem composed_keeps_call_order {collab : Collaborators}
    (calls : list BuilderCall) :
  Docx.children (composed calls) = flat_map child_of_call calls
  /\ Docx.abstractNumberings (composed calls)
     = flat_map abstractNumbering_of_call calls
  /\ Docx.numberings (composed calls) = flat_map numbering_of_call calls
  /\ Docx.webextensions (composed calls) = flat_map webextension_of_call calls
  /\ Docx.customItems (composed calls) = flat_map customItem_of_call calls
  /\ Docx._taskpanes (composed calls) = existsb is_taskpanes_call calls.
Proof. exact (fold_perform_collections calls Docx.new). Qed.

Example webextension_before_taskpanes :
  received_web_extensions
    (Docx.createDocx
       (composed [Call_webextension sample_webextension; Call_taskpanes]))
  = [Docx.createDocx_webextension sample_webextension].
Proof. reflexivity. Qed.

(** The web extensions that reach wasm do not depend on where [taskpanes()]
    stands among the calls: with it anywhere in the sequence, every
    registered web extension is handed over, earlier ones included, in
    registration order; without it, none is. *)
Theorem webextensions_forwarded_in_any_call_order {collab : Collaborators}
    (calls : list BuilderCall) :
  received_web_extensions (Docx.createDocx (composed calls))
  = if existsb is_taskpanes_call calls
    then map Docx.createDocx_webextension (flat_map webextension_of_call calls)
    else [].
Proof.
  rewrite received_web_extensions_createDocx.
  destruct (fold_perform_collections calls Docx.new) as (_ & _ & _ & H4 & _ & H6).
  unfold composed. simpl in H4, H6. now rewrite H4, H6.
Qed.

(** The calls for the document's children are the first calls the wasm
    document receives, one per child, in the children's order. *)
Theorem createDocx_children_first (this : Docx.t) :
  firstn (List.length (Docx.children this)) (Docx.createDocx this)
  = map child_call (Docx.children this).
Proof.
  rewrite createDocx_calls.
  rewrite <- (length_map child_call (Docx.children this)).
  rewrite firstn_app, Nat.sub_diag, firstn_all. simpl. now rewrite app_nil_r.
Qed.

(** ** The wasm heap across terminal calls *)

Example dangling_Docx_leaks :
  WasmHeap.live
    (Docx.heap_after
       (Docx.build (WasmModel.Docx_build "now") dangling_Docx WasmHeap.empty))
  = [(0%nat, Docx.createDocx dangling_Docx)].
Proof. reflexivity. Qed.

(** When the wasm [build] throws, [build] ends with that exception, the
    instance is unchanged, and the wasm document it created is still alive:
    [free] is not reached. *)
Theorem build_leaks_document_on_throw {Buf : Type}
    (wasm_Docx_build : wasm.Docx -> bool -> Outcome Buf)
    (this : Docx.t) (heap : WasmHeap.t) (e : Exception) :
  wasm_Docx_build (Docx.createDocx this) (Docx.hasNumberings this) = Throw e ->
  let built := Docx.build wasm_Docx_build this heap in
  Docx.outcome built = Throw e
  /\ Docx.this_after built = this
  /\ WasmHeap.live (Docx.heap_after built)
     = (WasmHeap.next_ptr heap, Docx.createDocx this) :: WasmHeap.live heap
  /\ WasmHeap.is_live (WasmHeap.next_ptr heap) (Docx.heap_after built) = true.
Proof.
  intros H built. subst built. unfold Docx.build. simpl. rewrite H. simpl.
  repeat split. unfold WasmHeap.is_live. simpl. now rewrite Nat.eqb_refl.
Qed.

Lemma build_leaks_document_on_throw_witness :
  WasmHeap.is_live 0
    (Docx.heap_after
       (Docx.build (WasmModel.Docx_build "now") dangling_Docx WasmHeap.empty))
  = true.
Proof.
  apply (build_leaks_document_on_throw (WasmModel.Docx_build "now")
           dangling_Docx WasmHeap.empty (e := ValidationError)).
  reflexivity.
Defined.




(** ** Comments *)

Lemma buildComment_eq id children a d p :
  buildComment (mkComment id children a d p)
  = buildComment_property a d p
      (fold_left
         (fun comment child =>
            match child with
            | CommentChild_Paragraph q =>
                wasm.Comment_call comment
                  (wasm.Comment_add_paragraph (buildParagraph q))
            | CommentChild_Table _ => comment
            end)
         children (wasm.createComment id)).
Proof. reflexivity. Qed.

Lemma comment_children_skip_tables children : forall comment,
  fold_left
    (fun comment child =>
       match child with
       | CommentChild_Paragraph q =>
           wasm.Comment_call comment
             (wasm.Comment_add_paragraph (buildParagraph q))
       | CommentChild_Table _ => comment
       end)
    children comment
  = fold_left
      (fun comment child =>
         match child with
         | CommentChild_Paragraph q =>
             wasm.Comment_call comment
               (wasm.Comment_add_paragraph (buildParagraph q))
         | CommentChild_Table _ => comment
         end)
      (comment_paragraphs children) comment.
Proof.
  induction children as [|[q|t] children IH]; intros comment; simpl.
  - reflexivity.
  - apply IH.
  - apply IH.
Qed.

Example reply_to_zero_built :
  buildComment reply_to_zero
  = wasm.createComment_ 1
      [ wasm.Comment_add_paragraph (buildParagraph hello_paragraph);
        wasm.Comment_author "author" ].
Proof. reflexivity. Qed.

(** A table among a comment's children is not translated: the comment is
    built as if it held its paragraph children only. *)
Theorem buildComment_skips_tables
    (id : Z) (children : list CommentChild) (_author _date : option string)
    (_parentCommentId : option Z) :
  buildComment (mkComment id children _author _date _parentCommentId)
  = buildComment
      (mkComment id (comment_paragraphs children) _author _date _parentCommentId).
Proof. rewrite !buildComment_eq. f_equal. apply comment_children_skip_tables. Qed.

Lemma Comment_calls_call c k :
  Comment_calls (wasm.Comment_call c k) = (Comment_calls c ++ [k])%list.
Proof. destruct c. reflexivity. Qed.

Lemma received_parent_ids_children children : forall comment,
  received_parent_comment_ids
    (fold_left
       (fun comment child =>
          match child with
          | CommentChild_Paragraph q =>
              wasm.Comment_call comment
                (wasm.Comment_add_paragraph (buildParagraph q))
          | CommentChild_Table _ => comment
          end)
       children comment)
  = received_parent_comment_ids comment.
Proof.
  induction children as [|[q|t] children IH]; intros comment; simpl;
    [reflexivity | | apply IH].
  rewrite IH. unfold received_parent_comment_ids.
  rewrite Comment_calls_call, flat_map_app. simpl. now rewrite app_nil_r.
Qed.

(** The parent comment id reaches wasm exactly when it is defined and not
    zero: an answer to comment 0 is built without its parent. *)
Theorem buildComment_parent_id (c : Comment.t) :
  received_parent_comment_ids (buildComment c)
  = match Comment._parentCommentId c with
    | Some p => if Z.eqb p 0 then [] else [p]
    | None => []
    end.
Proof.
  destruct c as [id children a d p]. rewrite buildComment_eq. simpl.
  unfold buildComment_property. cbv zeta.
  assert (E : forall k, received_parent_comment_ids k
                        = flat_map (fun k => match k with
                                             | wasm.Comment_parent_comment_id p => [p]
                                             | _ => [] end) (Comment_calls k))
    by reflexivity.
  unfold truthyZ.
  destruct (truthyS a), (truthyS d), p as [p|]; try destruct (Z.eqb p 0);
    rewrite E, ?Comment_calls_call, ?flat_map_app, <- ?E,
      received_parent_ids_children; simpl; reflexivity.
Qed.

(** ** Tables *)

Lemma buildTable_eq h rows grid property :
  buildTable (mkTable h rows grid property)
  = buildTable_property grid property
      (fold_left
         (fun table r =>
            match r with
            | mkTableRow cells height hRule =>
                table ▸ wasm.Table_add_row
                          (buildTable_row_property height hRule
                             (fold_left
                                (fun row c => row ▸ wasm.TableRow_add_cell (buildCell c))
                                cells wasm.createTableRow))
            end)
         rows wasm.createTable).
Proof. reflexivity. Qed.

Lemma buildTable_rows_calls rows :
  fold_left
    (fun table r =>
       match r with
       | mkTableRow cells height hRule =>
           table ▸ wasm.Table_add_row
                     (buildTable_row_property height hRule
                        (fold_left
                           (fun row c => row ▸ wasm.TableRow_add_cell (buildCell c))
                           cells wasm.createTableRow))
       end)
    rows wasm.createTable
  = map (fun r => wasm.Table_add_row (buildTable_row r)) rows.
Proof.
  rewrite (fold_left_calls _ (fun r => wasm.Table_add_row (buildTable_row r))).
  - reflexivity.
  - intros o [cells height hRule]. unfold buildTable_row. simpl.
    now rewrite (fold_left_calls _
                   (fun c => wasm.TableRow_add_cell (buildCell c)))
      by reflexivity.
Qed.

Lemma Uint32Array_in_range grid :
  Forall (fun w => 0 <= w < 2 ^ 32) grid -> Uint32Array grid = grid.
Proof.
  induction 1 as [|w grid Hw _ IH]; [reflexivity|].
  unfold Uint32Array in *. cbn [map]. rewrite IH. f_equal. now apply Z.mod_small.
Qed.

Example wide_grid_table_grid :
  received_grids (buildTable wide_grid_table) = [[2000; 4294967295; 0]].
Proof. reflexivity. Qed.

(** A built table received one row per row of the JavaScript table, in
    order, each with one cell per cell; one grid, the widths reduced modulo
    [2^32], which leaves widths between 0 and [2^32 - 1] as they are; and one
    indent, 0 when none is set. *)
Theorem buildTable_rows_grid_indent (t : Table.t) :
  received_rows (buildTable t) = map buildTable_row (Table.rows t)
  /\ (forall r, received_cells (buildTable_row r) = map buildCell (TableRow.cells r))
  /\ received_grids (buildTable t) = [Uint32Array (Table.grid t)]
  /\ (Forall (fun w => 0 <= w < 2 ^ 32) (Table.grid t) ->
      received_grids (buildTable t) = [Table.grid t])
  /\ received_table_indents (buildTable t)
     = [match TableProperty.indent (Table.property t) with
        | Some i => i | None => 0 end].
Proof.
  destruct t as [h rows grid property]. rewrite buildTable_eq, buildTable_rows_calls.
  simpl Table.rows. simpl Table.grid. simpl Table.property.
  assert (G : received_grids
                (buildTable_property grid property
                   (map (fun r => wasm.Table_add_row (buildTable_row r)) rows))
              = [Uint32Array grid]).
  { unfold received_grids. cbv beta delta [buildTable_property].
    walk (fun c : wasm.TableCall =>
            match c with wasm.Table_set_grid g => [g] | _ => [] end)
         (map (fun r => wasm.Table_add_row (buildTable_row r)) rows).
    unwalk. rewrite flat_map_call, flat_map_map_nil by reflexivity.
    reflexivity. }
  split; [|split; [|split; [|split]]].
  - unfold received_rows. cbv beta delta [buildTable_property].
    walk (fun c : wasm.TableCall =>
            match c with wasm.Table_add_row r => [r] | _ => [] end)
         (map (fun r => wasm.Table_add_row (buildTable_row r)) rows).
    unwalk. now apply flat_map_map_singleton.
  - intros [cells height hRule]. unfold buildTable_row, received_cells.
    simpl TableRow.cells. simpl TableRow.height. simpl TableRow.hRule.
    cbv beta delta [buildTable_row_property].
    walk (fun c : wasm.TableRowCall =>
            match c with wasm.TableRow_add_cell x => [x] | _ => [] end)
         (map (fun c => wasm.TableRow_add_cell (buildCell c)) cells).
    unwalk. now apply flat_map_map_singleton.
  - exact G.
  - intros Hr. now rewrite G, Uint32Array_in_range.
  - unfold received_table_indents. cbv beta delta [buildTable_property].
    walk (fun c : wasm.TableCall =>
            match c with wasm.Table_indent v => [v] | _ => [] end)
         (map (fun r => wasm.Table_add_row (buildTable_row r)) rows).
    unwalk. rewrite flat_map_call. unwalk.
    rewrite flat_map_map_nil by reflexivity.
    simpl. unfold truthyZ.
    destruct (TableProperty.indent property) as [i|]; [|reflexivity].
    destruct (Z.eqb_spec i 0) as [->|]; reflexivity.
Qed.

Lemma buildTable_rows_grid_indent_witness :
  received_grids
    (buildTable
       (mkTable false [] [2000; 3000] (TableProperty.mk None None None None)))
  = [[2000; 3000]].
Proof.
  apply (proj1 (proj2 (proj2 (proj2
           (buildTable_rows_grid_indent
              (mkTable false [] [2000; 3000]
                 (TableProperty.mk None None None None))))))).
  simpl. repeat constructor; lia.
Defined.

(** ** The order of cell borders *)

Lemma received_border_positions_setCellBorder q s cell :
  received_border_positions (setCellBorder q s cell)
  = (received_border_positions cell
     ++ match s with Some _ => [q] | None => [] end)%list.
Proof.
  unfold setCellBorder, received_border_positions. destruct s as [b|].
  - now rewrite flat_map_call.
  - now rewrite app_nil_r.
Qed.

Lemma received_border_positions_buildCellBorders bs cell :
  received_border_positions (buildCellBorders bs cell)
  = (received_border_positions cell ++ filter (slot_filled bs) border_order)%list.
Proof.
  unfold buildCellBorders. cbv zeta.
  rewrite !received_border_positions_setCellBorder, <- !app_assoc. f_equal.
  unfold border_order, slot_filled. simpl.
  destruct (TableCellBorders.top bs), (TableCellBorders.right bs),
    (TableCellBorders.bottom bs), (TableCellBorders.left bs),
    (TableCellBorders.insideH bs), (TableCellBorders.insideV bs),
    (TableCellBorders.tl2br bs), (TableCellBorders.tr2bl bs); reflexivity.
Qed.

Example diagonal_cell_border_order :
  received_border_positions (buildCell diagonal_cell)
  = [wasm.TableCellBorderPosition.Tl2br; wasm.TableCellBorderPosition.Tr2bl].
Proof. reflexivity. Qed.

(** The borders of a built cell are set in one fixed order (top, right,
    bottom, left, insideH, insideV, tl2br, tr2bl), whatever the order in
    which the slots were filled, and only the filled slots are set. *)
Theorem buildCell_border_order (c : TableCell.t) :
  received_border_positions (buildCell c)
  = match CellProperty.borders (TableCell.property c) with
    | Some bs => filter (slot_filled bs) border_order
    | None => []
    end.
Proof.
  destruct c as [children property]. rewrite buildCell_eq. simpl TableCell.property.
  rewrite (fold_left_calls _
             (fun c => match c with
                       | TableCellChild_Paragraph p =>
                           wasm.TableCell_add_paragraph (buildParagraph p)
                       | TableCellChild_Table t =>
                           wasm.TableCell_add_table (buildTable t)
                       end))
    by (intros o []; reflexivity).
  unfold wasm.createTableCell. simpl app.
  set (kids := map _ children).
  assert (K : received_border_positions kids = []).
  { subst kids. unfold received_border_positions.
    apply flat_map_map_nil. intros []; reflexivity. }
  unfold received_border_positions in *. cbv beta delta [buildCell_property].
  walk (fun c : wasm.TableCellCall =>
          match c with
          | wasm.TableCell_set_border b => [wasm.TableCellBorder_position b]
          | _ => [] end) kids.
  unwalk.
  destruct (CellProperty.borders property) as [bs|].
  - pose proof (received_border_positions_buildCellBorders bs) as E.
    unfold received_border_positions in E. rewrite E. unwalk. now rewrite K.
  - unwalk. exact K.
Qed.

(** ** Levels *)

Lemma Level_calls_call l k :
  wasm.Level_calls (wasm.Level_call l k) = (wasm.Level_calls l ++ [k])%list.
Proof. reflexivity. Qed.

Example level_suffix_fallback :
  received_suffixes
    (buildLevel
       (Level.mk 0 1 "decimal" "%1" "left" "Space" plain_RunProperty
          (LevelParagraphProperty.mk None)))
  = [wasm.LevelSuffixType.Tab].
Proof. reflexivity. Qed.

(** Every built level carries exactly one suffix: [Nothing] for "nothing",
    [Space] for "space", and [Tab] for any other string. *)
Theorem buildLevel_one_suffix (l : Level.t) :
  received_suffixes (buildLevel l)
  = [ if String.eqb (Level.levelSuffix l) "nothing" then
        wasm.LevelSuffixType.Nothing
      else if String.eqb (Level.levelSuffix l) "space" then
        wasm.LevelSuffixType.Space
      else wasm.LevelSuffixType.Tab ].
Proof.
  unfold received_suffixes, buildLevel. cbv zeta.
  destruct (String.eqb (Level.levelSuffix l) "nothing"),
    (String.eqb (Level.levelSuffix l) "space"),
    (RunProperty.bold (Level.runProperty l)),
    (RunProperty.italic (Level.runProperty l)),
    (truthyZ (RunProperty.size (Level.runProperty l))),
    (RunProperty.fonts (Level.runProperty l)),
    (LevelParagraphProperty.indent (Level.paragraphProperty l));
    rewrite ?Level_calls_call, ?flat_map_app; reflexivity.
Qed.

(** ** Paragraph properties *)

Lemma buildParagraph_eq h children property :
  buildParagraph (mkParagraph h children property)
  = buildParagraph_property property
      (fold_left
         (fun paragraph child =>
            match child with
            | ParagraphChild_Run r =>
                paragraph ▸ wasm.Paragraph_add_run (buildRun r)
            | ParagraphChild_Insert i =>
                paragraph ▸ wasm.Paragraph_add_insert (buildInsert i)
            | ParagraphChild_Delete d =>
                paragraph ▸ wasm.Paragraph_add_delete (buildDelete d)
            | ParagraphChild_BookmarkStart b =>
                paragraph ▸ wasm.Paragraph_add_bookmark_start
                              (BookmarkStart.id b) (BookmarkStart.name b)
            | ParagraphChild_BookmarkEnd b =>
                paragraph ▸ wasm.Paragraph_add_bookmark_end (BookmarkEnd.id b)
            | ParagraphChild_Comment c =>
                paragraph ▸ wasm.Paragraph_add_comment_start (buildComment c)
            | ParagraphChild_CommentEnd e =>
                paragraph ▸ wasm.Paragraph_add_comment_end (CommentEnd.id e)
            end)
         children wasm.createParagraph).
Proof. reflexivity. Qed.

(** The call [buildParagraph] makes for one member of [children]. *)
Lemma buildParagraph_children_calls children :
  fold_left
    (fun paragraph child =>
       match child with
       | ParagraphChild_Run r =>
           paragraph ▸ wasm.Paragraph_add_run (buildRun r)
       | ParagraphChild_Insert i =>
           paragraph ▸ wasm.Paragraph_add_insert (buildInsert i)
       | ParagraphChild_Delete d =>
           paragraph ▸ wasm.Paragraph_add_delete (buildDelete d)
       | ParagraphChild_BookmarkStart b =>
           paragraph ▸ wasm.Paragraph_add_bookmark_start
                         (BookmarkStart.id b) (BookmarkStart.name b)
       | ParagraphChild_BookmarkEnd b =>
           paragraph ▸ wasm.Paragraph_add_bookmark_end (BookmarkEnd.id b)
       | ParagraphChild_Comment c =>
           paragraph ▸ wasm.Paragraph_add_comment_start (buildComment c)
       | ParagraphChild_CommentEnd e =>
           paragraph ▸ wasm.Paragraph_add_comment_end (CommentEnd.id e)
       end)
    children wasm.createParagraph
  = map (fun child =>
           match child with
           | ParagraphChild_Run r => wasm.Paragraph_add_run (buildRun r)
           | ParagraphChild_Insert i => wasm.Paragraph_add_insert (buildInsert i)
           | ParagraphChild_Delete d => wasm.Paragraph_add_delete (buildDelete d)
           | ParagraphChild_BookmarkStart b =>
               wasm.Paragraph_add_bookmark_start (BookmarkStart.id b)
                 (BookmarkStart.name b)
           | ParagraphChild_BookmarkEnd b =>
               wasm.Paragraph_add_bookmark_end (BookmarkEnd.id b)
           | ParagraphChild_Comment c =>
               wasm.Paragraph_add_comment_start (buildComment c)
           | ParagraphChild_CommentEnd e =>
               wasm.Paragraph_add_comment_end (CommentEnd.id e)
           end) children.
Proof.
  rewrite (fold_left_calls _
             (fun child =>
                match child with
                | ParagraphChild_Run r => wasm.Paragraph_add_run (buildRun r)
                | ParagraphChild_Insert i =>
                    wasm.Paragraph_add_insert (buildInsert i)
                | ParagraphChild_Delete d =>
                    wasm.Paragraph_add_delete (buildDelete d)
                | ParagraphChild_BookmarkStart b =>
                    wasm.Paragraph_add_bookmark_start (BookmarkStart.id b)
                      (BookmarkStart.name b)
                | ParagraphChild_BookmarkEnd b =>
                    wasm.Paragraph_add_bookmark_end (BookmarkEnd.id b)
                | ParagraphChild_Comment c =>
                    wasm.Paragraph_add_comment_start (buildComment c)
                | ParagraphChild_CommentEnd e =>
                    wasm.Paragraph_add_comment_end (CommentEnd.id e)
                end)).
  - reflexivity.
  - intros o []; reflexivity.
Qed.

Example unflagged_numbering_forwarded :
  received_paragraph_numberings
    (buildParagraph
       (mkParagraph false []
          (ParagraphProperty.mk None None (Some (ParagraphNumbering.mk 0 0)) None
             plain_RunProperty None false false false false)))
  = [(0, 0)].
Proof. reflexivity. Qed.

(** A paragraph's numbering reference reaches wasm exactly when
    [property.numbering] is defined, with its id and level as they are (0
    included), whatever the paragraph's [hasNumberings] flag says. *)
Theorem buildParagraph_numbering (p : Paragraph.t) :
  received_paragraph_numberings (buildParagraph p)
  = match ParagraphProperty.numbering (Paragraph.property p) with
    | Some n => [(ParagraphNumbering.id n, ParagraphNumbering.level n)]
    | None => []
    end.
Proof.
  destruct p as [h children property].
  rewrite buildParagraph_eq, buildParagraph_children_calls.
  simpl Paragraph.property. set (kids := map _ children).
  assert (K : received_paragraph_numberings kids = []).
  { subst kids. unfold received_paragraph_numberings.
    apply flat_map_map_nil. intros []; reflexivity. }
  unfold received_paragraph_numberings in *.
  cbv beta delta [buildParagraph_property].
  walk (fun c : wasm.ParagraphCall =>
          match c with
          | wasm.Paragraph_numbering id level => [(id, level)]
          | _ => [] end) kids.
  unwalk.
  destruct (ParagraphProperty.numbering property);
    rewrite ?flat_map_call; unwalk; rewrite K; reflexivity.
Qed.

(** An alignment that is none of the seven known strings sends no alignment
    to wasm; a known one sends exactly one. *)
Theorem buildParagraph_unrecognized_align (p : Paragraph.t) (a : string) :
  ParagraphProperty.align (Paragraph.property p) = Some a ->
  ~ In a recognized_aligns ->
  received_aligns (buildParagraph p) = [].
Proof.
  intros Ha Hn. destruct p as [h children property].
  rewrite buildParagraph_eq, buildParagraph_children_calls.
  simpl Paragraph.property in Ha. set (kids := map _ children).
  assert (K : received_aligns kids = []).
  { subst kids. unfold received_aligns.
    apply flat_map_map_nil. intros []; reflexivity. }
  unfold received_aligns in *.
  cbv beta delta [buildParagraph_property].
  walk (fun c : wasm.ParagraphCall =>
          match c with wasm.Paragraph_align x => [x] | _ => [] end) kids.
  unwalk. rewrite Ha. unfold recognized_aligns in Hn.
  repeat (apply eqb_not_in in Hn; destruct Hn as [-> Hn]).
  exact K.
Qed.

Lemma buildParagraph_unrecognized_align_witness :
  received_aligns
    (buildParagraph
       (mkParagraph false []
          (ParagraphProperty.mk (Some "centre") None None None plain_RunProperty
             None false false false false)))
  = [].
Proof.
  apply (buildParagraph_unrecognized_align
           (mkParagraph false []
              (ParagraphProperty.mk (Some "centre") None None None
                 plain_RunProperty None false false false false))
           (a := "centre")).
  - reflexivity.
  - simpl. intuition discriminate.
Defined.

(** ** More of what [createDocx] hands over *)

Example default_grid_Docx :
  received_doc_grids
    (Docx.createDocx
       (Docx.with_sectionProperty
          (SectionProperty.mk None None (Some (DocGrid.mk "default" None (Some 360))))
          hello_Docx))
  = [(wasm.DocGridType.Default, Some 360, None)].
Proof. reflexivity. Qed.

(** A document grid whose type is none of "lines", "linesAndChars" and
    "snapToChars" is sent as the [Default] grid, once, with the line pitch
    first and the character space second. *)
Theorem createDocx_docGrid_default (this : Docx.t) (g : DocGrid.t) :
  SectionProperty._docGrid (Docx.sectionProperty this) = Some g ->
  ~ In (DocGrid.gridType g) ["lines"; "linesAndChars"; "snapToChars"] ->
  received_doc_grids (Docx.createDocx this)
  = [(wasm.DocGridType.Default, DocGrid.linePitch g, DocGrid.charSpace g)].
Proof.
  intros Hg Hn. unfold received_doc_grids. over_blocks. silent_blocks.
  unfold Docx.createDocx_docGrid. rewrite Hg. cbv zeta.
  repeat (apply eqb_not_in in Hn; destruct Hn as [-> Hn]).
  reflexivity.
Qed.

Lemma createDocx_docGrid_default_witness :
  received_doc_grids
    (Docx.createDocx
       (Docx.with_sectionProperty
          (SectionProperty.mk None None (Some (DocGrid.mk "default" None (Some 360))))
          hello_Docx))
  = [(wasm.DocGridType.Default, Some 360, None)].
Proof.
  apply (createDocx_docGrid_default
           (Docx.with_sectionProperty
              (SectionProperty.mk None None
                 (Some (DocGrid.mk "default" None (Some 360))))
              hello_Docx)
           (g := DocGrid.mk "default" None (Some 360))).
  - reflexivity.
  - simpl. intuition discriminate.
Defined.

Lemma createDocx_numbering_calls n :
  wasm.Numbering_calls (Docx.createDocx_numbering n)
  = map (fun o => wasm.Numbering_add_override (Docx.createDocx_levelOverride o))
      (Numbering.overrides n).
Proof.
  unfold Docx.createDocx_numbering.
  assert (G : forall os a,
             wasm.Numbering_calls
               (fold_left
                  (fun num o =>
                     let levelOverride := Docx.createDocx_levelOverride o in
                     wasm.Numbering_call num
                       (wasm.Numbering_add_override levelOverride)) os a)
             = (wasm.Numbering_calls a
                ++ map (fun o => wasm.Numbering_add_override
                                   (Docx.createDocx_levelOverride o)) os)%list).
  { induction os as [|o os IH]; intros a; simpl.
    - now rewrite app_nil_r.
    - rewrite IH. simpl. unfold call. now rewrite <- app_assoc. }
  now rewrite G.
Qed.

Example override_Docx_numbering :
  received_numberings (Docx.createDocx override_Docx)
  = [ wasm.createNumbering_ 0 0
        [wasm.Numbering_add_override
           (wasm.createLevelOverride_ 0
              [wasm.LevelOverride_level
                 (wasm.createLevel 0 3 "decimal" "%1" "left")])] ].
Proof. reflexivity. Qed.

(** Every numbering of the model reaches wasm, in order, with its id and
    abstract numbering id unchanged and one override per override, in order.
    An override keeps its level index; its start value is sent whenever it is
    not null, zero included, before its level definition. *)
Theorem createDocx_numberings_forwarded (this : Docx.t) :
  map (fun n => (wasm.Numbering_id n, wasm.Numbering_abstractNumId n,
                 List.length (wasm.Numbering_calls n)))
    (received_numberings (Docx.createDocx this))
  = map (fun n => (Numbering.id n, Numbering.abstractNumId n,
                   List.length (Numbering.overrides n)))
      (Docx.numberings this)
  /\ (forall n, wasm.Numbering_calls (Docx.createDocx_numbering n)
                = map (fun o => wasm.Numbering_add_override
                                  (Docx.createDocx_levelOverride o))
                    (Numbering.overrides n))
  /\ (forall o,
        wasm.LevelOverride_level_ (Docx.createDocx_levelOverride o)
        = LevelOverride.level o
        /\ wasm.LevelOverride_calls (Docx.createDocx_levelOverride o)
           = (match LevelOverride.startOverride o with
              | Some s => [wasm.LevelOverride_start s] | None => [] end
              ++ match LevelOverride.levelOverride o with
                 | Some lo =>
                     [wasm.LevelOverride_level
                        (wasm.createLevel (OverrideLevel.level lo)
                           (OverrideLevel.start lo) (OverrideLevel.format lo)
                           (OverrideLevel.text lo) (OverrideLevel.jc lo))]
                 | None => [] end)%list).
Proof.
  split; [|split].
  - rewrite received_numberings_createDocx, map_map. apply map_ext. intros n.
    rewrite createDocx_numbering_abstractNumId, createDocx_numbering_calls,
      length_map.
    f_equal. f_equal. unfold Docx.createDocx_numbering.
    generalize (Numbering.overrides n). intros os.
    change (Numbering.id n)
      with (wasm.Numbering_id
              (wasm.createNumbering (Numbering.id n) (Numbering.abstractNumId n)))
      at 2.
    generalize (wasm.createNumbering (Numbering.id n) (Numbering.abstractNumId n)).
    induction os as [|o os IH]; intros a; simpl; [reflexivity|].
    now rewrite IH.
  - apply createDocx_numbering_calls.
  - intros o. unfold Docx.createDocx_levelOverride. cbv zeta.
    destruct (LevelOverride.startOverride o), (LevelOverride.levelOverride o);
      split; reflexivity.
Qed.

Example custom_item_without_taskpanes :
  received_custom_items
    (Docx.createDocx
       (Docx.with_customItems [CustomItem.mk "06AC5857" "<root/>"] hello_Docx))
  = [("06AC5857", "<root/>")].
Proof. reflexivity. Qed.

(** Custom items and custom properties always reach wasm, each once and in
    the model's order; unlike web extensions, custom items need no task
    panes. *)
Theorem createDocx_custom_forwarded (this : Docx.t) :
  received_custom_items (Docx.createDocx this)
  = map (fun item => (CustomItem.id item, CustomItem.xml item))
      (Docx.customItems this)
  /\ received_custom_properties (Docx.createDocx this)
     = DocProps._customProperties (Docx.docProps this).
Proof.
  split.
  - unfold received_custom_items. over_blocks. silent_blocks.
    apply flat_map_map_singleton. reflexivity.
  - unfold received_custom_properties. over_blocks. silent_blocks.
    rewrite (flat_map_map_singleton _ _ (fun kv => kv)).
    + apply map_id.
    + intros [k v]. reflexivity.
Qed.

Example dated_Docx_dates :
  received_created_at (Docx.createDocx dated_Docx) = ["2019-01-01T00:00:00Z"]
  /\ received_updated_at (Docx.createDocx dated_Docx)
     = ["2019-01-02T00:00:00Z"; "2019-01-02T00:00:00Z"].
Proof. split; reflexivity. Qed.

(** The created date is sent once and the updated date twice, with the same
    value both times, when they are non-empty strings; an empty or missing
    date is not sent at all. *)
Theorem createDocx_dates_forwarded (this : Docx.t) :
  received_created_at (Docx.createDocx this)
  = match DocProps._createdAt (Docx.docProps this) with
    | Some c => if String.eqb c "" then [] else [c]
    | None => []
    end
  /\ received_updated_at (Docx.createDocx this)
     = match DocProps._updatedAt (Docx.docProps this) with
       | Some u => if String.eqb u "" then [] else [u; u]
       | None => []
       end.
Proof.
  rewrite received_created_at_createDocx, received_updated_at_createDocx.
  unfold truthyS.
  destruct (DocProps._createdAt (Docx.docProps this)) as [c|],
    (DocProps._updatedAt (Docx.docProps this)) as [u|];
    try destruct (String.eqb c ""); try destruct (String.eqb u "");
    split; reflexivity.
Qed.

(** The default tab stop is always sent, once; the document id only when it
    is a non-empty string; the document variables all, in order. *)
Theorem createDocx_settings_forwarded (this : Docx.t) :
  received_tab_stops (Docx.createDocx this)
  = [Settings._defaultTabStop (Docx.settings this)]
  /\ received_doc_ids (Docx.createDocx this)
     = match Settings._docId (Docx.settings this) with
       | Some id => if String.eqb id "" then [] else [id]
       | None => []
       end
  /\ received_doc_vars (Docx.createDocx this)
     = map (fun v => (DocVar.name v, DocVar.val v))
         (Settings._docVars (Docx.settings this)).
Proof.
  split; [|split].
  - unfold received_tab_stops. over_blocks. silent_blocks. reflexivity.
  - unfold received_doc_ids. over_blocks. silent_blocks. unfold truthyS.
    destruct (Settings._docId (Docx.settings this)) as [id|]; [|reflexivity].
    destruct (String.eqb id ""); reflexivity.
  - unfold received_doc_vars. over_blocks. silent_blocks.
    apply flat_map_map_singleton. reflexivity.
Qed.

(** ** Paragraph content and text borders *)

(** The content of a built paragraph is one call per child of the
    JavaScript paragraph, in the children's order; the property calls add
    none. *)
Theorem buildParagraph_content_in_order (p : Paragraph.t) :
  received_paragraph_content (buildParagraph p)
  = map paragraph_child_call (Paragraph.children p).
Proof.
  destruct p as [h children property].
  rewrite buildParagraph_eq, buildParagraph_children_calls.
  simpl Paragraph.children.
  change (map _ children) with (map paragraph_child_call children).
  assert (K : received_paragraph_content (map paragraph_child_call children)
              = map paragraph_child_call children).
  { unfold received_paragraph_content.
    rewrite (flat_map_map_singleton _ _ paragraph_child_call); [reflexivity|].
    intros []; reflexivity. }
  unfold received_paragraph_content in *.
  cbv beta delta [buildParagraph_property].
  walk (fun c : wasm.ParagraphCall =>
          match c with
          | wasm.Paragraph_add_run _ | wasm.Paragraph_add_insert _
          | wasm.Paragraph_add_delete _
          | wasm.Paragraph_add_bookmark_start _ _
          | wasm.Paragraph_add_bookmark_end _
          | wasm.Paragraph_add_comment_start _
          | wasm.Paragraph_add_comment_end _ => [c]
          | _ => [] end) (map paragraph_child_call children).
  unwalk. exact K.
Qed.

Example wavy_border_run_sent :
  received_text_borders (buildRun wavy_border_run)
  = [(wasm.BorderType.Single, 4, 0, "auto")].
Proof. reflexivity. Qed.

(** A run's text border reaches wasm once, its type converted by
    [convertBorderType] and followed by size, space and colour in that
    order; a run without a text border sends none. *)
Theorem buildRun_text_border (r : Run.t) :
  received_text_borders (buildRun r)
  = match RunProperty.textBorder (Run.property r) with
    | Some b =>
        [(convertBorderType (TextBorder.borderType b), TextBorder.size b,
          TextBorder.space b, TextBorder.color b)]
    | None => []
    end.
Proof.
  unfold received_text_borders. cbv beta delta [buildRun].
  walk (fun c : wasm.RunCall =>
          match c with
          | wasm.Run_text_border t size space color => [(t, size, space, color)]
          | _ => [] end) (@nil wasm.RunCall).
  unwalk.
  destruct (RunProperty.textBorder (Run.property r));
    rewrite ?flat_map_call; unwalk;
    (rewrite blind_run_children;
     [ unwalk; reflexivity
     | intros []; simpl; split_tests; reflexivity ]).
Qed.

Lemma createDocx_abstractNumbering_calls n :
  wasm.AbstractNumbering_calls (Docx.createDocx_abstractNumbering n)
  = map (fun l => wasm.AbstractNumbering_add_level (buildLevel l))
      (AbstractNumbering.levels n).
Proof.
  unfold Docx.createDocx_abstractNumbering.
  assert (G : forall ls a,
             wasm.AbstractNumbering_calls
               (fold_left
                  (fun num l =>
                     let level := buildLevel l in
                     wasm.AbstractNumbering_call num
                       (wasm.AbstractNumbering_add_level level)) ls a)
             = (wasm.AbstractNumbering_calls a
                ++ map (fun l => wasm.AbstractNumbering_add_level (buildLevel l))
                     ls)%list).
  { induction ls as [|l ls IH]; intros a; simpl.
    - now rewrite app_nil_r.
    - rewrite IH. simpl. unfold call. now rewrite <- app_assoc. }
  now rewrite G.
Qed.

(** Every abstract numbering of the model reaches wasm, in order, with its
    id unchanged and its levels built one by one in the model's order. *)
Theorem createDocx_abstractNumberings_forwarded (this : Docx.t) :
  received_abstract_numberings (Docx.createDocx this)
  = map (fun n =>
           wasm.createAbstractNumbering_ (AbstractNumbering.id n)
             (map (fun l => wasm.AbstractNumbering_add_level (buildLevel l))
                (AbstractNumbering.levels n)))
      (Docx.abstractNumberings this).
Proof.
  rewrite received_abstract_numberings_createDocx. apply map_ext. intros n.
  pose proof (createDocx_abstractNumbering_id n) as Hid.
  pose proof (createDocx_abstractNumbering_calls n) as Hc.
  destruct (Docx.createDocx_abstractNumbering n) as [id calls].
  simpl in Hid, Hc. now subst.
Qed.
